(** * expressly: the request-dispatch core of the edge router

    A shallow embedding of [src/lib/routing/router.ts] (the [Router] class,
    [defaultErrorHandler], [preflightHandler]) and of the response builder of
    [src/lib/response.ts], together with the properties of the dispatch
    state machine: 404/405 selection, short-circuit on an ended response,
    the fallback error chain and response serialization. *)

From Stdlib Require Import String Ascii List ZArith Bool Arith Lia.
Import ListNotations.
Open Scope string_scope.
Open Scope list_scope.

(** ** JavaScript strings and truthiness *)

Module JS.

(** Case folding of the ASCII letters, every other character left as it
    is: what Fetch applies to header names, and what [toUpperCase] does to
    the names of HTTP methods. *)
Definition lower_ascii (c : ascii) : ascii :=
  let n := nat_of_ascii c in
  if ((65 <=? n) && (n <=? 90))%nat then ascii_of_nat (n + 32) else c.

Definition upper_ascii (c : ascii) : ascii :=
  let n := nat_of_ascii c in
  if ((97 <=? n) && (n <=? 122))%nat then ascii_of_nat (n - 32) else c.

Fixpoint toLowerCase (s : string) : string :=
  match s with
  | EmptyString => EmptyString
  | String c s' => String (lower_ascii c) (toLowerCase s')
  end.

Fixpoint toUpperCase (s : string) : string :=
  match s with
  | EmptyString => EmptyString
  | String c s' => String (upper_ascii c) (toUpperCase s')
  end.

(** [Boolean(s)] for a string: only the empty string is falsy. *)
Definition truthy_string (s : string) : bool := negb (s =? "").

(** [Boolean(n)] for an integer: only 0 is falsy. *)
Definition truthy_number (n : Z) : bool := negb (n =? 0)%Z.

(** [Boolean(n)] for a length or a size. *)
Definition truthy_length (n : nat) : bool := negb (n =? 0)%nat.

(** A [Map<string, string>]: insertion-ordered, one entry per key.
    [Map.prototype.set] overwrites the value of an existing key where it
    stands and appends a new key at the end. *)
Definition Map := list (string * string).

Fixpoint Map_set (k v : string) (m : Map) : Map :=
  match m with
  | [] => [(k, v)]
  | (k', v') :: m' =>
      if k' =? k then (k', v) :: m' else (k', v') :: Map_set k v m'
  end.

Definition Map_size (m : Map) : nat := length m.

(** The values in the order [Map.prototype.forEach] visits them. *)
Definition Map_values (m : Map) : list string := map snd m.

End JS.

(** ** The Fetch [Headers] multi-map

    Header names are case-insensitive: they are stored lower-cased, in
    insertion order, one entry per appended value. *)

Module Headers.

Definition t := list (string * string).

Definition norm (name : string) : string := JS.toLowerCase name.

Definition named (name : string) (kv : string * string) : bool :=
  fst kv =? norm name.

Definition has (name : string) (h : t) : bool := existsb (named name) h.

(** Every value stored under [name], oldest first. *)
Definition values (name : string) (h : t) : list string :=
  map snd (filter (named name) h).

(** [get] combines the values of a name with [", "]; [None] is [null]. *)
Definition get (name : string) (h : t) : option string :=
  match values name h with
  | [] => None
  | vs => Some (String.concat ", " vs)
  end.

Definition delete (name : string) (h : t) : t :=
  filter (fun kv => negb (named name kv)) h.

Definition append (name value : string) (h : t) : t :=
  h ++ [(norm name, value)].

(** [set] overwrites the first entry of the name and drops the others, or
    appends when the name is absent. *)
Fixpoint set_norm (n value : string) (h : t) : t :=
  match h with
  | [] => [(n, value)]
  | (k, v) :: h' =>
      if k =? n then (k, value) :: filter (fun kv => negb (fst kv =? n)) h'
      else (k, v) :: set_norm n value h'
  end.

Definition set (name value : string) (h : t) : t :=
  set_norm (norm name) value h.

End Headers.

(** ** Requests, responses and errors *)

(** [EHeaders]: the header multi-map, plus the cookies tracked apart from it
    ([res.headers.cookies]). *)
Record EHeaders := {
  entries : Headers.t;
  cookies : JS.Map
}.

(** A [BodyInit]: a string, or an object (blob, buffer, stream). *)
Inductive BodyInit :=
| BodyText (s : string)
| BodyObject (bytes : list Byte.byte).

(** [Boolean(res.body)]: [null] and the empty string are falsy, every
    object is truthy. *)
Definition truthy_body (b : option BodyInit) : bool :=
  match b with
  | None => false
  | Some (BodyText s) => JS.truthy_string s
  | Some (BodyObject _) => true
  end.

(** [EReq]: what the router reads from, and writes to, the request. *)
Record EReq := {
  method : string;
  pathname : string;            (* req.urlObj.pathname *)
  req_headers : Headers.t;
  params : list (string * string)
}.

(** [ERes]: the response builder. [status = 0] means "not set". *)
Record ERes := {
  status : Z;
  headers : EHeaders;
  body : option BodyInit;
  hasEnded : bool
}.

(** The errors of [./errors] and any other thrown [Error]. *)
Inductive JSError :=
| ErrorNotFound
| ErrorMethodNotAllowed (allowed : list (list string))
| OtherError (message : string).

(** Modelled from the spec: the class [ErrorMethodNotAllowed] is not under
    src/; its [allow] field is "the comma-joined allowed methods". The
    runner hands it an array of method arrays, joined as JavaScript joins
    nested arrays. *)
Definition allow (allowed : list (list string)) : string :=
  String.concat "," (List.concat allowed).

(** How an awaited callback completes. *)
Inductive Completion :=
| Normal
| Throw (e : JSError).

(** Callbacks mutate the request and the response in place, also when they
    end up throwing: they return both next to their completion. *)
Definition RequestHandlerCallback : Type :=
  EReq -> ERes -> EReq * ERes * Completion.

Definition ErrorMiddlewareCallback : Type :=
  JSError -> EReq -> ERes -> EReq * ERes * Completion.

(** The values handed to [JSON.stringify]: a string, or an object whose
    fields hold strings ([{ error: err.message }]). *)
Inductive JValue :=
| JString (s : string)
| JObject (fields : list (string * string)).

(** [CookieOptions] of the package's type declarations. *)
Inductive Priority := PriorityLow | PriorityMedium | PriorityHigh.
Inductive SameSite := SameSiteStrict | SameSiteLax | SameSiteNone | SameSiteBool (b : bool).

Record CookieOptions := {
  domain : option string;
  encode : option string;
  expires : option string;
  httpOnly : option bool;
  maxAge : option Z;
  path_opt : option string;
  priority : option Priority;
  sameSite : option SameSite;
  secure : option bool
}.

Definition noCookieOptions : CookieOptions :=
  {| domain := None; encode := None; expires := None; httpOnly := None;
     maxAge := None; path_opt := None; priority := None; sameSite := None;
     secure := None |}.

(** The result of a successful path match of path-to-regexp. *)
Record MatchResult := {
  path : string;
  match_params : list (string * string)
}.

(** ** The platform

    What the router imports and does not define: the path matcher of
    path-to-regexp, [cookie.serialize], [JSON.stringify],
    [String.prototype.toLowerCase] (which folds every cased letter, not the
    ASCII ones only), and how the [Response] constructor copies the headers
    it is given (the runtime the router targets collapses repeated names
    there). *)
Class Platform := {
  path_to_regexp_match : string -> string -> option MatchResult;
  String_toLowerCase : string -> string;
  cookie_serialize : string -> string -> CookieOptions -> string;
  JSON_stringify : JValue -> string;
  Response_init_headers : Headers.t -> Headers.t
}.

(** ** The response builder of [src/lib/response.ts] *)

Module FPResponse.

Record t := {
  _headers : Headers.t;
  _body : option BodyInit;
  status : Z;
  _cookies : JS.Map
}.

Definition new : t :=
  {| _headers := []; _body := None; status := 0; _cookies := [] |}.

(** What [send] accepts: a body, or a whole [Response]. *)
Inductive Sendable :=
| SendBody (b : option BodyInit)
| SendResponse (r_body : option BodyInit) (r_headers : Headers.t) (r_status : Z).

Definition setHeader (key value : string) (r : t) : t :=
  {| _headers := Headers.set key value (_headers r); _body := _body r;
     status := status r; _cookies := _cookies r |}.

Definition appendHeader (key value : string) (r : t) : t :=
  {| _headers := Headers.append key value (_headers r); _body := _body r;
     status := status r; _cookies := _cookies r |}.

Definition useHeaders (hs : Headers.t) (r : t) : t :=
  fold_left (fun acc kv => setHeader (fst kv) (snd kv) acc) hs r.

Definition withBody (b : option BodyInit) (r : t) : t :=
  {| _headers := _headers r; _body := b; status := status r;
     _cookies := _cookies r |}.

Definition withStatus (n : Z) (r : t) : t :=
  {| _headers := _headers r; _body := _body r; status := n;
     _cookies := _cookies r |}.

Definition send (response : Sendable) (r : t) : t :=
  match response with
  | SendResponse b hs st => withStatus st (useHeaders hs (withBody b r))
  | SendBody b => withBody b r
  end.

(** [json(data: any)]: [None] is a datum, [undefined] first, that
    [JSON.stringify] turns into [undefined] and not into a string. *)
Definition json `{Platform} (data : option JValue) (r : t) : t :=
  send (SendBody (match data with
                  | Some d => Some (BodyText (JSON_stringify d))
                  | None => None
                  end))
       (setHeader "Content-Type" "application/json" r).

Definition writeHead (statusCode : Z) (hs : list (string * string)) (r : t) : t :=
  fold_left (fun acc kv => setHeader (fst kv) (snd kv) acc) hs
            (withStatus statusCode r).

Definition cookie `{Platform} (key value : string) (options : CookieOptions)
    (r : t) : t :=
  {| _headers := _headers r; _body := _body r; status := status r;
     _cookies := JS.Map_set key (cookie_serialize key value options) (_cookies r) |}.

Definition redirect (url : string) (r : t) : t :=
  send (SendBody (Some (BodyText ("Redirecting you to: " ++ url)%string)))
       (writeHead 301 [("Location", url)] r).

(** [this.body == null] holds of [null] only: an empty string is a body. *)
Definition setDefaults (r : t) : t :=
  if (status r =? 0)%Z then
    match _body r with
    | None => withBody (Some (BodyText "Not Found")) (withStatus 404 r)
    | Some _ => withStatus 200 r
    end
  else r.

End FPResponse.

(** ** The response builder the router works on

    Modelled from the spec: the class [EResponse] of [./response] (and its
    [EHeaders]) is not under src/. The spec has it accumulate status,
    headers, cookies and body, with "ended" becoming true once a handler has
    produced a definitive response; [json] and [cookie] follow their
    namesakes of [FPResponse]. *)

Module EResponse.

Definition new : ERes :=
  {| status := 0; headers := {| entries := []; cookies := [] |};
     body := None; hasEnded := false |}.

Definition setHeader (name value : string) (res : ERes) : ERes :=
  {| status := status res;
     headers := {| entries := Headers.set name value (entries (headers res));
                   cookies := cookies (headers res) |};
     body := body res; hasEnded := hasEnded res |}.

Definition appendHeader (name value : string) (res : ERes) : ERes :=
  {| status := status res;
     headers := {| entries := Headers.append name value (entries (headers res));
                   cookies := cookies (headers res) |};
     body := body res; hasEnded := hasEnded res |}.

Definition withStatus (n : Z) (res : ERes) : ERes :=
  {| status := n; headers := headers res; body := body res;
     hasEnded := hasEnded res |}.

(** "Respond [n]": the status is set and the response is ended. *)
Definition sendStatus (n : Z) (res : ERes) : ERes :=
  {| status := n; headers := headers res; body := body res;
     hasEnded := true |}.

Definition send (b : BodyInit) (res : ERes) : ERes :=
  {| status := status res; headers := headers res; body := Some b;
     hasEnded := true |}.

Definition json `{Platform} (data : JValue) (res : ERes) : ERes :=
  send (BodyText (JSON_stringify data))
       (setHeader "Content-Type" "application/json" res).

Definition cookie `{Platform} (key value : string) (options : CookieOptions)
    (res : ERes) : ERes :=
  {| status := status res;
     headers := {| entries := entries (headers res);
                   cookies := JS.Map_set key (cookie_serialize key value options)
                                         (cookies (headers res)) |};
     body := body res; hasEnded := hasEnded res |}.

End EResponse.

(** ** The router of [src/lib/routing/router.ts] *)

(** The value a check returns: [0], [404], or the array of the route's
    methods. *)
Inductive CheckResult :=
| Matched                                   (* 0 *)
| NotFound                                  (* 404 *)
| MethodMismatch (methods : list string).   (* string[] *)

(** A check reads the request and may attach the path parameters to it. *)
Definition Matcher : Type := EReq -> CheckResult * EReq.

(** Modelled from the spec: the classes [RequestHandler] and
    [ErrorMiddleware] are not under src/; each "pairs a predicate with a
    callback": [check] applies the matcher, [run] awaits the callback. *)
Record RequestHandler := {
  check : Matcher;
  run : RequestHandlerCallback
}.

Record ErrorMiddleware := {
  e_check : Matcher;
  e_run : ErrorMiddlewareCallback
}.

Record AutoCorsPreflightOptions := {
  trustedOrigins : list string
}.

Record EConfig := {
  parseCookie : bool;
  auto405 : bool;
  extractRequestParameters : bool;
  autoContentType : bool;
  autoCorsPreflight : option AutoCorsPreflightOptions
}.

(** A function passed to [use]: what [cb.length === 3] tells apart. *)
Inductive Callback :=
| RequestCallback (f : RequestHandlerCallback)    (* cb.length <> 3 *)
| ErrorCallback (f : ErrorMiddlewareCallback).    (* cb.length = 3 *)

Definition cb_length (cb : Callback) : nat :=
  match cb with
  | RequestCallback _ => 2
  | ErrorCallback _ => 3
  end.

(** What a dispatch did, in order: the checks it evaluated and the
    callbacks it awaited, each with the position of its handler in its
    chain. A callback's entry records [res.hasEnded] as the callback left
    it. The log is an observer: no control flow reads it. *)
Inductive Event :=
| RequestChecked (i : nat) (r : CheckResult)
| RequestRan (i : nat) (ended : bool)
| ErrorChecked (i : nat) (r : CheckResult)
| ErrorRan (i : nat) (ended : bool).

(** The objects a dispatch shares between its handlers. *)
Record Ctx := {
  c_req : EReq;
  c_res : ERes;
  c_log : list Event
}.

(** The fetch event, as far as [ERequest] reads it. *)
Record FetchEvent := {
  ev_method : string;
  ev_pathname : string;
  ev_headers : Headers.t
}.

(** The wire-level [Response]. *)
Record Response := {
  r_status : Z;
  r_headers : Headers.t;
  r_body : option BodyInit
}.

(** What the [Response] constructor throws instead of building a
    response: a [RangeError] for a status outside 200..599, a [TypeError]
    for a body that is not [null] with a status that allows none. *)
Inductive ResponseError :=
| RangeError
| TypeError.

Definition nullBodyStatus (n : Z) : bool :=
  ((n =? 101) || (n =? 103) || (n =? 204) || (n =? 205) || (n =? 304))%Z.

Definition Response_init_error (b : option BodyInit) (n : Z)
    : option ResponseError :=
  if ((n <? 200) || (599 <? n))%Z then Some RangeError
  else match b with
       | Some _ => if nullBodyStatus n then Some TypeError else None
       | None => None
       end.

Definition withParams (ps : list (string * string)) (req : EReq) : EReq :=
  {| method := method req; pathname := pathname req;
     req_headers := req_headers req; params := ps |}.

Definition ERequest_new (ev : FetchEvent) : EReq :=
  {| method := ev_method ev; pathname := ev_pathname ev;
     req_headers := ev_headers ev; params := [] |}.

Definition logged (e : Event) (c : Ctx) : Ctx :=
  {| c_req := c_req c; c_res := c_res c; c_log := c_log c ++ [e] |}.

(** What [handler] starts from: the request of the event, a new response,
    nothing logged. *)
Definition initialCtx (ev : FetchEvent) : Ctx :=
  {| c_req := ERequest_new ev; c_res := EResponse.new; c_log := [] |}.

Module Router.

Section Defs.

Context `{P : Platform}.

Definition defaultErrorHandler (auto405 : bool) : ErrorMiddlewareCallback :=
  fun err req res =>
    match err with
    | ErrorNotFound => (req, EResponse.sendStatus 404 res, Normal)
    | ErrorMethodNotAllowed allowed =>
        if negb auto405 then (req, EResponse.sendStatus 404 res, Normal)
        else (req,
              EResponse.sendStatus 405
                (EResponse.setHeader "Allow" (allow allowed) res),
              Normal)
    | OtherError message =>
        (* console.error(err) *)
        (req,
         EResponse.json (JObject [("error", message)])
                        (EResponse.withStatus 500 res),
         Normal)
    end.

Definition preflightHandler (autoCorsPreflight : AutoCorsPreflightOptions)
    : RequestHandlerCallback :=
  fun req res =>
    let trusted := trustedOrigins autoCorsPreflight in
    if (length trusted =? 0)%nat then (req, EResponse.sendStatus 403 res, Normal)
    else
      let originHeaderValue : option string :=
        if ((length trusted =? 1)%nat && (nth 0 trusted "" =? "*"))%bool
        then Some "*"
        else if Headers.has "origin" (req_headers req) then
          match Headers.get "origin" (req_headers req) with
          | Some o =>
              let origin := String_toLowerCase o in
              if existsb (fun trustedOrigin =>
                            String_toLowerCase trustedOrigin =? origin) trusted
              then Some origin else None
          | None => None
          end
        else None in
      match originHeaderValue with
      | None => (req, EResponse.sendStatus 403 res, Normal)
      | Some v =>
          if negb (JS.truthy_string v)
          then (req, EResponse.sendStatus 403 res, Normal)
          else
            let res1 :=
              if Headers.has "access-control-request-method" (req_headers req) then
                match Headers.get "access-control-request-method" (req_headers req) with
                | Some m => EResponse.setHeader "access-control-allow-methods" m res
                | None => res
                end
              else res in
            let res2 :=
              if Headers.has "access-control-request-headers" (req_headers req) then
                match Headers.get "access-control-request-headers" (req_headers req) with
                | Some h => EResponse.setHeader "access-control-allow-headers" h res1
                | None => res1
                end
              else res1 in
            (req,
             EResponse.sendStatus 200
               (EResponse.setHeader "access-control-allow-origin" v res2),
             Normal)
      end.

Record t := {
  requestHandlers : list RequestHandler;
  errorHandlers : list ErrorMiddleware;
  config : EConfig
}.

(** [pathMatcherCache] memoises the compiled matcher of a pattern;
    [path_to_regexp_match pattern] is that matcher, cached or not. *)
Definition routeMatcher (cfg : EConfig) (methods : list string)
    (pattern : string) : Matcher :=
  fun req =>
    let methodAllowed :=
      existsb (fun m => (m =? "*") || (m =? method req))%bool methods in
    if ((pattern =? "*") || (pattern =? "(.*)"))%bool then
      (if methodAllowed then Matched else MethodMismatch methods, req)
    else
      match path_to_regexp_match pattern (pathname req) with
      | Some r =>
          if JS.truthy_string (path r) then
            let req' := if extractRequestParameters cfg
                        then withParams (match_params r) req else req in
            (if methodAllowed then Matched else MethodMismatch methods, req')
          else (NotFound, req)
      | None => (NotFound, req)
      end.

Definition use (path : option string) (cb : Callback) (r : t) : t :=
  let matcher : Matcher :=
    match path with
    | None => fun req => (Matched, req)
    | Some p => routeMatcher (config r) ["*"] p
    end in
  match cb with
  | ErrorCallback f =>
      {| requestHandlers := requestHandlers r;
         errorHandlers := errorHandlers r ++ [{| e_check := matcher; e_run := f |}];
         config := config r |}
  | RequestCallback f =>
      {| requestHandlers := requestHandlers r ++ [{| check := matcher; run := f |}];
         errorHandlers := errorHandlers r;
         config := config r |}
  end.

Definition route (methods : list string) (pattern : string)
    (callback : RequestHandlerCallback) (r : t) : t :=
  {| requestHandlers :=
       requestHandlers r ++
       [{| check := routeMatcher (config r) (map JS.toUpperCase methods) pattern;
           run := callback |}];
     errorHandlers := errorHandlers r;
     config := config r |}.

Definition all := route ["*"].
Definition get := route ["GET"].
Definition post := route ["POST"].
Definition put := route ["PUT"].
Definition delete := route ["DELETE"].
Definition head := route ["HEAD"].
Definition options := route ["OPTIONS"].
Definition patch := route ["PATCH"].
Definition purge := route ["PURGE"].

Definition defaultConfig : EConfig :=
  {| parseCookie := true; auto405 := true; extractRequestParameters := true;
     autoContentType := false; autoCorsPreflight := None |}.

(** [new Router(config)], with [config] already spread over the defaults. *)
Definition constructor (cfg : EConfig) : t :=
  let r := {| requestHandlers := []; errorHandlers := []; config := cfg |} in
  match autoCorsPreflight cfg with
  | Some o => options "*" (preflightHandler o) r
  | None => r
  end.

(** *** The request-handler chain *)

(** The two locals of [runRequestHandlers]; [checkResult] starts out
    [undefined]. *)
Record Locals := {
  checkResult : option CheckResult;
  allowedMethods : list (list string)
}.

Definition withReq (req : EReq) (c : Ctx) : Ctx :=
  {| c_req := req; c_res := c_res c; c_log := c_log c |}.

Definition withReqRes (req : EReq) (res : ERes) (c : Ctx) : Ctx :=
  {| c_req := req; c_res := res; c_log := c_log c |}.

(** The [for] loop, from the handler at position [i] on. *)
Fixpoint requestLoop (i : nat) (hs : list RequestHandler) (l : Locals)
    (c : Ctx) : Locals * Ctx * Completion :=
  match hs with
  | [] => (l, c, Normal)
  | a :: rest =>
      if hasEnded (c_res c) then (l, c, Normal)
      else
        let '(r, req1) := check a (c_req c) in
        let c1 := logged (RequestChecked i r) (withReq req1 c) in
        match r with
        | Matched =>
            let l1 := {| checkResult := Some r;
                         allowedMethods := allowedMethods l |} in
            let '(req2, res2, k) := run a req1 (c_res c1) in
            let c2 := logged (RequestRan i (hasEnded res2))
                             (withReqRes req2 res2 c1) in
            match k with
            | Normal => requestLoop (S i) rest l1 c2
            | Throw e => (l1, c2, Throw e)
            end
        | MethodMismatch ms =>
            let l1 := {| checkResult := Some r;
                         allowedMethods :=
                           if JS.truthy_length (length ms)
                           then allowedMethods l ++ [ms]
                           else allowedMethods l |} in
            requestLoop (S i) rest l1 c1
        | NotFound =>
            let l1 := {| checkResult := Some r;
                         allowedMethods := allowedMethods l |} in
            requestLoop (S i) rest l1 c1
        end
  end.

(** What follows the loop. *)
Definition afterLoop (l : Locals) : Completion :=
  if JS.truthy_length (length (allowedMethods l))
  then Throw (ErrorMethodNotAllowed (allowedMethods l))
  else match checkResult l with
       | Some NotFound => Throw ErrorNotFound
       | _ => Normal
       end.

Definition noLocals : Locals :=
  {| checkResult := None; allowedMethods := [] |}.

Definition runRequestHandlers (r : t) (c : Ctx) : Ctx * Completion :=
  let '(l, c', k) := requestLoop 0 (requestHandlers r) noLocals c in
  match k with
  | Throw e => (c', Throw e)
  | Normal => (c', afterLoop l)
  end.

(** *** The error-handler chain *)

Fixpoint errorLoop (i : nat) (hs : list ErrorMiddleware) (err : JSError)
    (c : Ctx) : Ctx * Completion :=
  match hs with
  | [] => (c, Normal)
  | eH :: rest =>
      if hasEnded (c_res c) then (c, Normal)
      else
        let '(r, req1) := e_check eH (c_req c) in
        let c1 := logged (ErrorChecked i r) (withReq req1 c) in
        match r with
        | Matched =>
            let '(req2, res2, k) := e_run eH err req1 (c_res c1) in
            let c2 := logged (ErrorRan i (hasEnded res2))
                             (withReqRes req2 res2 c1) in
            match k with
            | Normal => errorLoop (S i) rest err c2
            | Throw e => (c2, Throw e)
            end
        | _ => errorLoop (S i) rest err c1
        end
  end.

Definition runErrorHandlers (r : t) (err : JSError) (c : Ctx)
    : Ctx * Completion :=
  errorLoop 0 (errorHandlers r) err c.

(** *** Serialization and the dispatch *)

(** The response [serializeResponse] returns when [new Response] accepts
    the body and the status it is given; [serializeResponse_checked] below
    is the whole function, with the constructor throwing. *)
Definition serializeResponse (res : ERes) : Response :=
  let response :=
    {| r_status := if JS.truthy_number (status res) then status res
                   else if truthy_body (body res) then 200%Z else 204%Z;
       r_headers := Response_init_headers (entries (headers res));
       r_body := body res |} in
  if JS.truthy_length (JS.Map_size (cookies (headers res))) then
    {| r_status := r_status response;
       r_headers :=
         fold_left (fun h c => Headers.append "Set-Cookie" c h)
                   (JS.Map_values (cookies (headers res)))
                   (Headers.delete "Set-Cookie" (r_headers response));
       r_body := r_body response |}
  else response.

Definition serializeResponse_checked (res : ERes) : Response + ResponseError :=
  match Response_init_error (body res) (r_status (serializeResponse res)) with
  | Some e => inr e
  | None => inl (serializeResponse res)
  end.

(** How the promise of [handler] settles: with a response, with the error
    an error handler threw, or with the error [new Response] threw, which
    [handler] does not catch. *)
Inductive Settled :=
| Resolved (response : Response)
| Rejected (e : JSError)
| RejectedByResponse (e : ResponseError).

(** [return Router.serializeResponse(res)], at the end of [handler]. *)
Definition settle (res : ERes) : Settled :=
  match serializeResponse_checked res with
  | inl response => Resolved response
  | inr e => RejectedByResponse e
  end.

(** A dispatch: the router as the dispatch leaves it, the settled promise,
    and the context with its log. *)
Record Dispatch := {
  d_router : t;
  d_settled : Settled;
  d_ctx : Ctx
}.

Definition handler (r : t) (event : FetchEvent) : Dispatch :=
  match runRequestHandlers r (initialCtx event) with
  | (c1, Normal) =>
      {| d_router := r; d_settled := settle (c_res c1); d_ctx := c1 |}
  | (c1, Throw err) =>
      let r' := use None (ErrorCallback (defaultErrorHandler (auto405 (config r)))) r in
      match runErrorHandlers r' err c1 with
      | (c2, Normal) =>
          {| d_router := r'; d_settled := settle (c_res c2); d_ctx := c2 |}
      | (c2, Throw e) =>
          {| d_router := r'; d_settled := Rejected e; d_ctx := c2 |}
      end
  end.

(** The router's own handler of the error chain, as [use] files it. *)
Definition defaultErrorMiddleware (r : t) : ErrorMiddleware :=
  {| e_check := fun req => (Matched, req);
     e_run := defaultErrorHandler (auto405 (config r)) |}.

(** The events of a sequence of dispatches on one router instance. *)
Definition dispatchAll (r : t) (events : list FetchEvent) : t :=
  fold_left (fun r ev => d_router (handler r ev)) events r.

End Defs.

End Router.


(** ** Vocabulary of the properties *)

(** The calls a handler makes on the response builder. *)
Inductive BuilderCall :=
| CallCookie (key value : string) (options : CookieOptions)
| CallSetHeader (name value : string)
| CallAppendHeader (name value : string)
| CallWithStatus (n : Z).

Definition cookieCalls (calls : list BuilderCall)
    : list (string * string * CookieOptions) :=
  flat_map (fun call => match call with
                        | CallCookie k v o => [(k, v, o)]
                        | _ => []
                        end) calls.

Definition cookieName (c : string * string * CookieOptions) : string :=
  fst (fst c).

(** The universal patterns, and the method test of [routeMatcher]. *)
Definition isUniversal (pattern : string) : bool :=
  (pattern =? "*") || (pattern =? "(.*)").

Definition methodAllowed (methods : list string) (req : EReq) : bool :=
  existsb (fun m => (m =? "*") || (m =? method req)) methods.

Definition allowOrigin (res : ERes) : option string :=
  Headers.get "access-control-allow-origin" (entries (headers res)).

(** The method arrays the request chain pushed, read off the log: those of
    the checks that returned a non-empty array, in order. *)
Definition accumulated (log : list Event) : list (list string) :=
  flat_map (fun e => match e with
                     | RequestChecked _ (MethodMismatch ms) =>
                         if JS.truthy_length (length ms) then [ms] else []
                     | _ => []
                     end) log.

(** The result of the last check of the request chain in the log. *)
Definition lastCheck (before : option CheckResult) (log : list Event)
    : option CheckResult :=
  fold_left (fun acc e => match e with
                          | RequestChecked _ r => Some r
                          | _ => acc
                          end) log before.

(** [res.hasEnded] after the callbacks of the log. *)
Definition endedAfter (before : bool) (log : list Event) : bool :=
  fold_left (fun acc e => match e with
                          | RequestRan _ b | ErrorRan _ b => b
                          | _ => acc
                          end) log before.

(** The entry of a callback that left the response ended. *)
Definition ranEnded (e : Event) : bool :=
  match e with
  | RequestRan _ b | ErrorRan _ b => b
  | _ => false
  end.

Definition position (e : Event) : nat :=
  match e with
  | RequestChecked i _ | RequestRan i _ | ErrorChecked i _ | ErrorRan i _ => i
  end.

(** The shape of what the request chain logs from position [i] on: a check
    per handler visited, a callback entry right after a check that
    matched, and nothing after a callback that ended the response or
    threw. *)
Inductive requestLog : nat -> list Event -> Prop :=
| requestLog_nil i : requestLog i []
| requestLog_skip i r rest :
    r <> Matched -> requestLog (S i) rest ->
    requestLog i (RequestChecked i r :: rest)
| requestLog_run i rest :
    requestLog (S i) rest ->
    requestLog i (RequestChecked i Matched :: RequestRan i false :: rest)
| requestLog_stop i b :
    requestLog i [RequestChecked i Matched; RequestRan i b].

Inductive errorLog : nat -> list Event -> Prop :=
| errorLog_nil i : errorLog i []
| errorLog_skip i r rest :
    r <> Matched -> errorLog (S i) rest ->
    errorLog i (ErrorChecked i r :: rest)
| errorLog_run i rest :
    errorLog (S i) rest ->
    errorLog i (ErrorChecked i Matched :: ErrorRan i false :: rest)
| errorLog_stop i b :
    errorLog i [ErrorChecked i Matched; ErrorRan i b].

(** Nothing is logged after a callback that left the response ended. *)
Definition stopsWhenEnded (log : list Event) : Prop :=
  forall pre e post, log = pre ++ e :: post -> ranEnded e = true -> post = [].

(** What an authorized preflight copies from the request: the requested
    method and headers, each when the request names it. *)
Definition mirrorRequested (req : EReq) (res : ERes) : ERes :=
  let res1 :=
    if Headers.has "access-control-request-method" (req_headers req) then
      match Headers.get "access-control-request-method" (req_headers req) with
      | Some m => EResponse.setHeader "access-control-allow-methods" m res
      | None => res
      end
    else res in
  if Headers.has "access-control-request-headers" (req_headers req) then
    match Headers.get "access-control-request-headers" (req_headers req) with
    | Some h => EResponse.setHeader "access-control-allow-headers" h res1
    | None => res1
    end
  else res1.

Definition header (name : string) (res : ERes) : option string :=
  Headers.get name (entries (headers res)).

(** [Map.prototype.get]: the value of a key, [None] for [undefined]. *)
Fixpoint Map_get (k : string) (m : JS.Map) : option string :=
  match m with
  | [] => None
  | (k', v) :: m' => if k' =? k then Some v else Map_get k m'
  end.

(** A header value the Fetch [Headers] stores as it is given: it holds no
    NUL, line feed or carriage return, and neither starts nor ends with a
    tab or a space. Any other value is trimmed first, or refused. *)
Definition forbiddenInValue (c : ascii) : bool :=
  let n := nat_of_ascii c in ((n =? 0) || (n =? 10) || (n =? 13))%nat.

Definition tabOrSpace (c : ascii) : bool :=
  let n := nat_of_ascii c in ((n =? 9) || (n =? 32))%nat.

Definition storedAsGiven (value : string) : bool :=
  let cs := list_ascii_of_string value in
  negb (existsb forbiddenInValue cs) &&
  negb (match cs with [] => false | c :: _ => tabOrSpace c end) &&
  negb (match rev cs with [] => false | c :: _ => tabOrSpace c end).

Section Vocabulary.

Context `{P : Platform}.

Definition perform (call : BuilderCall) (res : ERes) : ERes :=
  match call with
  | CallCookie k v o => EResponse.cookie k v o res
  | CallSetHeader n v => EResponse.setHeader n v res
  | CallAppendHeader n v => EResponse.appendHeader n v res
  | CallWithStatus n => EResponse.withStatus n res
  end.

Definition performAll (calls : list BuilderCall) (res : ERes) : ERes :=
  fold_left (fun r call => perform call r) calls res.

Definition serialized (c : string * string * CookieOptions) : string :=
  cookie_serialize (fst (fst c)) (snd (fst c)) (snd c).

(** The [Set-Cookie] headers of a wire-level response. *)
Definition setCookieHeaders (response : Response) : list string :=
  Headers.values "Set-Cookie" (r_headers response).

(** An origin matches the trusted list when it equals one of its entries,
    letter case apart. *)
Definition originMatches (trusted : list string) (o : string) : bool :=
  existsb (fun t => String_toLowerCase t =? String_toLowerCase o) trusted.

(** The pathname of the request matched the pattern: the pattern is
    universal, or the matcher returned a match (whose [path], the matched
    text, is not empty). *)
Definition pathMatched (pattern : string) (req : EReq) : Prop :=
  isUniversal pattern = true \/
  exists m, path_to_regexp_match pattern (pathname req) = Some m /\ path m <> "".

(** The request chain of the dispatch of [ev] fails: it throws, whatever
    the error. *)
Definition chainFails (r : Router.t) (ev : FetchEvent) : bool :=
  match snd (Router.runRequestHandlers r (initialCtx ev)) with
  | Normal => false
  | Throw _ => true
  end.

(** How many of the events fail the request chain of the router. *)
Definition failures (r : Router.t) (events : list FetchEvent) : nat :=
  length (filter (chainFails r) events).

End Vocabulary.

(** ** A concrete platform and a few routers

    A platform to run the definitions on: patterns without parameters match
    the pathname equal to them, a cookie is serialized as [name=value],
    strings are lower-cased as ASCII strings are, and the [Response]
    constructor copies the headers as they are. *)

Definition dquote : string := String (ascii_of_nat 34) EmptyString.

Definition demo_stringify (j : JValue) : string :=
  match j with
  | JString s => dquote ++ s ++ dquote
  | JObject fields =>
      "{" ++ String.concat ","
               (map (fun kv => dquote ++ fst kv ++ dquote ++ ":" ++
                               dquote ++ snd kv ++ dquote) fields) ++ "}"
  end%string.

Definition demoPlatform : Platform :=
  {| path_to_regexp_match := fun pattern p =>
       if pattern =? p then Some {| path := p; match_params := [] |} else None;
     String_toLowerCase := JS.toLowerCase;
     cookie_serialize := fun k v _ => (k ++ "=" ++ v)%string;
     JSON_stringify := demo_stringify;
     Response_init_headers := fun h => h |}.

Section Demo.

#[local] Existing Instance demoPlatform.

(** A middleware that touches nothing, a handler that answers, and a
    middleware that throws. *)
Definition passThrough : RequestHandlerCallback :=
  fun req res => (req, res, Normal).

Definition sendOk : RequestHandlerCallback :=
  fun req res => (req, EResponse.send (BodyText "ok") res, Normal).

Definition boom : RequestHandlerCallback :=
  fun req res => (req, res, Throw (OtherError "boom")).

Definition emptyRouter : Router.t :=
  Router.constructor Router.defaultConfig.

(** [router.use(passThrough); router.get("/x", sendOk)] *)
Definition middlewareThenGet : Router.t :=
  Router.get "/x" sendOk
    (Router.use None (RequestCallback passThrough) emptyRouter).

(** [router.get("/x", sendOk); router.use(boom)] *)
Definition getThenBoom : Router.t :=
  Router.use None (RequestCallback boom)
    (Router.get "/x" sendOk emptyRouter).

(** [router.use(sendOk); router.get("/x", sendOk)] *)
Definition answerThenGet : Router.t :=
  Router.get "/x" sendOk
    (Router.use None (RequestCallback sendOk) emptyRouter).

Definition request (m p : string) : FetchEvent :=
  {| ev_method := m; ev_pathname := p; ev_headers := [] |}.

(** The request loop of the dispatch of an event. *)
Definition loopOf (r : Router.t) (ev : FetchEvent)
    : Router.Locals * Ctx * Completion :=
  Router.requestLoop 0 (Router.requestHandlers r) Router.noLocals (initialCtx ev).

(** Preflight configurations, and a preflight request from an origin. *)
Definition trustA : AutoCorsPreflightOptions :=
  {| trustedOrigins := ["https://a.com"] |}.

Definition trustWildcardAndA : AutoCorsPreflightOptions :=
  {| trustedOrigins := ["*"; "https://a.com"] |}.

Definition preflightFrom (origin : string) : EReq :=
  {| method := "OPTIONS"; pathname := "/";
     req_headers := Headers.append "Origin" origin []; params := [] |}.

(** Two cookies, with a generic [Set-Cookie] header set between them. *)
Definition twoCookies : list BuilderCall :=
  [CallCookie "a" "1" noCookieOptions;
   CallSetHeader "Set-Cookie" "x=y";
   CallCookie "b" "2" noCookieOptions].

(** A [Set-Cookie] header through the generic path, and no cookie. *)
Definition genericSetCookie : ERes :=
  EResponse.appendHeader "Set-Cookie" "a=1" EResponse.new.

(** [res.send("")] on a new response. *)
Definition emptyStringSent : ERes :=
  EResponse.send (BodyText "") EResponse.new.

(** [router.get("/x", sendOk)] *)
Definition onlyGet : Router.t :=
  Router.get "/x" sendOk emptyRouter.

(** [router.get("/x", sendOk); router.post("/x", sendOk)] *)
Definition getThenPost : Router.t :=
  Router.post "/x" sendOk onlyGet.

(** The single wildcard as the trusted list, a configuration with
    [autoCorsPreflight], and a preflight that asks for [PUT]. *)
Definition trustAll : AutoCorsPreflightOptions :=
  {| trustedOrigins := ["*"] |}.

Definition corsConfig : EConfig :=
  {| parseCookie := true; auto405 := true; extractRequestParameters := true;
     autoContentType := false; autoCorsPreflight := Some trustA |}.

Definition preflightAsking (origin requested : string) : EReq :=
  {| method := "OPTIONS"; pathname := "/";
     req_headers := Headers.append "Access-Control-Request-Method" requested
                      (Headers.append "Origin" origin []);
     params := [] |}.


(** A response to forward: two headers, a status and a body. *)
Definition upstreamHeaders : Headers.t :=
  [("content-type", "text/plain"); ("x-upstream", "yes")].

(** A handler that answers with the empty string, [res.send("")], and the
    router [use(sendEmpty)]. *)
Definition sendEmpty : RequestHandlerCallback :=
  fun req res => (req, EResponse.send (BodyText "") res, Normal).

Definition answerEmpty : Router.t :=
  Router.use None (RequestCallback sendEmpty) emptyRouter.

(** A router constructed with [autoCorsPreflight], with a middleware and a
    route registered after. *)
Definition corsThenRoutes : Router.t :=
  Router.options "/x" sendOk
    (Router.use None (RequestCallback passThrough) (Router.constructor corsConfig)).

End Demo.

(** ** Properties of the header multi-map *)

Lemma named_norm (name : string) (v : string) :
  Headers.named name (Headers.norm name, v) = true.
Proof. unfold Headers.named; simpl. apply String.eqb_refl. Qed.

Lemma values_filter_out (n : string) (h : Headers.t) :
  map snd (filter (fun kv => fst kv =? n)
                  (filter (fun kv => negb (fst kv =? n)) h)) = [].
Proof.
  induction h as [|[k v] h IH]; simpl; [reflexivity|].
  destruct (k =? n) eqn:E; simpl; [exact IH|].
  rewrite E. exact IH.
Qed.

Lemma values_set_norm (n value : string) (h : Headers.t) :
  map snd (filter (fun kv => fst kv =? n) (Headers.set_norm n value h)) = [value].
Proof.
  induction h as [|[k v] h IH]; simpl.
  - rewrite String.eqb_refl. reflexivity.
  - destruct (k =? n) eqn:E; simpl; rewrite E.
    + simpl. rewrite values_filter_out. reflexivity.
    + exact IH.
Qed.

Lemma values_set (name value : string) (h : Headers.t) :
  Headers.values name (Headers.set name value h) = [value].
Proof. apply values_set_norm. Qed.

Lemma get_set (name value : string) (h : Headers.t) :
  Headers.get name (Headers.set name value h) = Some value.
Proof. unfold Headers.get. rewrite values_set. reflexivity. Qed.

Lemma values_delete (name : string) (h : Headers.t) :
  Headers.values name (Headers.delete name h) = [].
Proof.
  unfold Headers.values, Headers.delete.
  induction h as [|kv h IH]; simpl; [reflexivity|].
  destruct (Headers.named name kv) eqn:E; simpl; [exact IH|].
  rewrite E. exact IH.
Qed.

Lemma values_append (name value : string) (h : Headers.t) :
  Headers.values name (Headers.append name value h) =
  Headers.values name h ++ [value].
Proof.
  unfold Headers.values, Headers.append.
  rewrite filter_app, map_app. simpl.
  rewrite named_norm. reflexivity.
Qed.

Lemma values_append_all (name : string) (vs : list string) (h : Headers.t) :
  Headers.values name
    (fold_left (fun acc c => Headers.append name c acc) vs h) =
  Headers.values name h ++ vs.
Proof.
  revert h. induction vs as [|v vs IH]; intro h; simpl.
  - now rewrite app_nil_r.
  - rewrite IH, values_append, <- app_assoc. reflexivity.
Qed.

Lemma has_get (name : string) (h : Headers.t) :
  Headers.has name h = true <-> Headers.get name h <> None.
Proof.
  unfold Headers.has, Headers.get, Headers.values.
  induction h as [|kv h IH]; simpl.
  - split; [discriminate | intro H; now elim H].
  - destruct (Headers.named name kv); simpl.
    + split; [discriminate | reflexivity].
    + exact IH.
Qed.

(** ** Properties of serialization and of the built-in handlers *)

Section Properties.

Context `{P : Platform}.

Lemma Map_set_fresh (k v : string) (m : JS.Map) :
  ~ In k (map fst m) -> JS.Map_set k v m = m ++ [(k, v)].
Proof.
  induction m as [|[k' v'] m IH]; simpl; intro H; [reflexivity|].
  destruct (k' =? k) eqn:E.
  - apply String.eqb_eq in E. tauto.
  - rewrite IH by tauto. reflexivity.
Qed.

Lemma Map_set_all_fresh (cs : list (string * string * CookieOptions)) (m : JS.Map) :
  NoDup (map fst m ++ map cookieName cs) ->
  fold_left (fun acc c => JS.Map_set (cookieName c) (serialized c) acc) cs m =
  m ++ map (fun c => (cookieName c, serialized c)) cs.
Proof.
  revert m. induction cs as [|c cs IH]; intros m H; simpl.
  - now rewrite app_nil_r.
  - assert (Hc : ~ In (cookieName c) (map fst m)).
    { intro Hin. apply NoDup_remove_2 in H. apply H.
      apply in_or_app. now left. }
    rewrite Map_set_fresh by exact Hc.
    rewrite IH.
    + rewrite <- app_assoc. reflexivity.
    + rewrite map_app. simpl. rewrite <- app_assoc. simpl.
      apply NoDup_remove_1 in H as H1. apply NoDup_remove_2 in H as H2.
      clear - H1 H2.
      induction (map fst m) as [|x xs IHx]; simpl in *.
      * constructor; assumption.
      * inversion H1; subst. constructor.
        -- intro Hin. apply in_app_or in Hin. destruct Hin as [Hin|[Hin|Hin]].
           ++ apply H3. apply in_or_app. now left.
           ++ subst. apply H2. now left.
           ++ apply H3. apply in_or_app. now right.
        -- apply IHx; [assumption|]. intro Hin. apply H2. now right.
Qed.

Lemma cookies_performAll (calls : list BuilderCall) (res : ERes) :
  cookies (headers (performAll calls res)) =
  fold_left (fun acc c => JS.Map_set (cookieName c) (serialized c) acc)
            (cookieCalls calls) (cookies (headers res)).
Proof.
  revert res. induction calls as [|call calls IH]; intro res; simpl;
    [reflexivity|].
  unfold performAll in *. simpl. rewrite IH.
  destruct call; simpl; reflexivity.
Qed.

(** The two builders track cookies the same way: a [Map] keyed by the
    cookie's name, holding its serialization. *)
Lemma cookie_tracked (key value : string) (options : CookieOptions)
    (res : ERes) (fp : FPResponse.t) :
  cookies (headers (EResponse.cookie key value options res)) =
    JS.Map_set key (cookie_serialize key value options) (cookies (headers res)) /\
  FPResponse._cookies (FPResponse.cookie key value options fp) =
    JS.Map_set key (cookie_serialize key value options) (FPResponse._cookies fp).
Proof. split; reflexivity. Qed.

(** [setDefaults] of the older builder, for comparison: with the status
    unset, any body that is not [null], the empty string too, gives 200,
    and [null] gives 404. *)
Lemma setDefaults_status (fp : FPResponse.t) :
  FPResponse.status fp = 0%Z ->
  FPResponse.status (FPResponse.setDefaults fp) =
  match FPResponse._body fp with
  | None => 404%Z
  | Some _ => 200%Z
  end.
Proof.
  intro H. unfold FPResponse.setDefaults. rewrite H. simpl.
  now destruct (FPResponse._body fp).
Qed.

(** With a cookie tracked, the [Set-Cookie] headers of the wire-level
    response are the tracked cookies, whatever the generic entries were. *)
Lemma serializeResponse_tracked (res : ERes) :
  cookies (headers res) <> [] ->
  setCookieHeaders (Router.serializeResponse res) =
  JS.Map_values (cookies (headers res)).
Proof.
  intro H. unfold setCookieHeaders, Router.serializeResponse.
  destruct (cookies (headers res)) as [|c cs] eqn:E; [now elim H|].
  cbn [JS.Map_size length JS.truthy_length Nat.eqb negb r_headers].
  rewrite values_append_all, values_delete. reflexivity.
Qed.

(** Without one, the generic entries reach the wire as the constructor
    copied them. *)
Lemma serializeResponse_untracked (res : ERes) :
  cookies (headers res) = [] ->
  r_headers (Router.serializeResponse res) =
  Response_init_headers (entries (headers res)).
Proof.
  intro H. unfold Router.serializeResponse. rewrite H. reflexivity.
Qed.

(** C7, as amended. When the calls on a fresh response builder set N >= 1
    cookies of distinct names, in any interleaving with calls that set or
    append generic headers (also [Set-Cookie] ones) or the status, the
    serialized response carries exactly N [Set-Cookie] headers: the
    serialized cookies, in the order they were set. *)
Theorem serializeResponse_set_cookie (calls : list BuilderCall) :
  cookieCalls calls <> [] ->
  NoDup (map cookieName (cookieCalls calls)) ->
  let response := Router.serializeResponse (performAll calls EResponse.new) in
  setCookieHeaders response = map serialized (cookieCalls calls) /\
  length (setCookieHeaders response) = length (cookieCalls calls).
Proof.
  intros Hne Hnd response.
  assert (Hc : cookies (headers (performAll calls EResponse.new)) =
               map (fun c => (cookieName c, serialized c)) (cookieCalls calls)).
  { rewrite cookies_performAll. simpl.
    rewrite Map_set_all_fresh by exact Hnd. reflexivity. }
  assert (Hv : setCookieHeaders response = map serialized (cookieCalls calls)).
  { unfold response. rewrite serializeResponse_tracked.
    - rewrite Hc. unfold JS.Map_values. rewrite map_map. reflexivity.
    - rewrite Hc. destruct (cookieCalls calls); [now elim Hne | discriminate]. }
  split; [exact Hv|]. rewrite Hv. apply length_map.
Qed.

(** The status expression of [serializeResponse], cookies or no. *)
Lemma serializeResponse_status_eq (res : ERes) :
  r_status (Router.serializeResponse res) =
  if JS.truthy_number (status res) then status res
  else if truthy_body (body res) then 200%Z else 204%Z.
Proof.
  unfold Router.serializeResponse.
  destruct (JS.truthy_length _); reflexivity.
Qed.

Lemma serializeResponse_status_set (res : ERes) :
  status res <> 0%Z -> r_status (Router.serializeResponse res) = status res.
Proof.
  intro H. rewrite serializeResponse_status_eq. unfold JS.truthy_number.
  apply Z.eqb_neq in H. now rewrite H.
Qed.

(** C8. The code where it parts from the specification. With the status
    unset and the empty string as the body, a body is present but falsy:
    [serializeResponse] hands the status 204 to [new Response] together
    with that body, the constructor throws a [TypeError], and the promise
    of the dispatch rejects with it. [setDefaults] of the older builder
    tests the body against [null] and gives 200 there, as the
    specification has it. *)
Theorem empty_string_body_throws (res : ERes) (fp : FPResponse.t) :
  status res = 0%Z -> body res = Some (BodyText "") ->
  FPResponse.status fp = 0%Z -> FPResponse._body fp = Some (BodyText "") ->
  Router.serializeResponse_checked res = inr TypeError /\
  Router.settle res = Router.RejectedByResponse TypeError /\
  FPResponse.status (FPResponse.setDefaults fp) = 200%Z.
Proof.
  intros Hs Hb Hfs Hfb.
  assert (Hc : Router.serializeResponse_checked res = inr TypeError).
  { unfold Router.serializeResponse_checked.
    rewrite serializeResponse_status_eq, Hs, Hb. reflexivity. }
  split; [exact Hc|]. split.
  - unfold Router.settle. now rewrite Hc.
  - unfold FPResponse.setDefaults. now rewrite Hfs, Hfb.
Qed.

(** C4. The default error handler answers [ErrorNotFound], and
    [ErrorMethodNotAllowed] with auto405 off, with 404; answers
    [ErrorMethodNotAllowed] with auto405 on with 405 and the [Allow] header
    set to the comma-joined allowed methods; and answers every other error
    with 500 and the JSON body [{ error: message }]. It never throws, and
    the serialized response carries the same status. *)
Theorem defaultErrorHandler_maps_errors
    (auto405 : bool) (err : JSError) (req : EReq) (res : ERes) :
  let '(_, res', k) := Router.defaultErrorHandler auto405 err req res in
  k = Normal /\ hasEnded res' = true /\
  r_status (Router.serializeResponse res') = status res' /\
  match err with
  | ErrorNotFound => status res' = 404%Z
  | ErrorMethodNotAllowed allowed =>
      if auto405
      then status res' = 405%Z /\
           Headers.get "Allow" (entries (headers res')) = Some (allow allowed)
      else status res' = 404%Z
  | OtherError message =>
      status res' = 500%Z /\
      body res' = Some (BodyText (JSON_stringify (JObject [("error", message)]))) /\
      Headers.get "Content-Type" (entries (headers res')) = Some "application/json"
  end.
Proof.
  assert (Hser : forall r : ERes, status r <> 0%Z ->
                 r_status (Router.serializeResponse r) = status r).
  { intros r Hr. now apply serializeResponse_status_set. }
  destruct err as [|allowed|message]; simpl.
  - repeat split. now apply Hser.
  - destruct auto405; simpl.
    + repeat split; [now apply Hser | apply get_set].
    + repeat split. now apply Hser.
  - repeat split; [now apply Hser | apply get_set].
Qed.

(** C5. For a pattern that is not universal, a pathname the pattern does
    not match gives [NotFound] whatever the method of the request; a
    [MethodMismatch] is returned only with the route's own methods, only
    when the path matched (or the pattern is universal) and the method is
    not allowed; and when the path matched the result is [Matched] if the
    method is allowed, [MethodMismatch methods] if not. *)
Theorem routeMatcher_path_before_method
    (cfg : EConfig) (methods : list string) (pattern : string) (req : EReq) :
  (isUniversal pattern = false ->
   path_to_regexp_match pattern (pathname req) = None ->
   forall req', pathname req' = pathname req ->
   fst (Router.routeMatcher cfg methods pattern req') = NotFound) /\
  (forall ms, fst (Router.routeMatcher cfg methods pattern req) = MethodMismatch ms ->
   ms = methods /\ methodAllowed methods req = false /\ pathMatched pattern req) /\
  (pathMatched pattern req ->
   fst (Router.routeMatcher cfg methods pattern req) =
   if methodAllowed methods req then Matched else MethodMismatch methods).
Proof.
  unfold Router.routeMatcher, pathMatched, isUniversal, methodAllowed.
  repeat split.
  - intros Hu Hn req' Hp. rewrite Hu, Hp, Hn. reflexivity.
  - destruct ((pattern =? "*") || (pattern =? "(.*)"))%bool eqn:Hu; simpl in H.
    + destruct (existsb _ methods); [discriminate | congruence].
    + destruct (path_to_regexp_match pattern (pathname req)) as [m|];
        [|discriminate].
      destruct (JS.truthy_string (path m)); simpl in H; [|discriminate].
      destruct (existsb _ methods); [discriminate | congruence].
  - destruct ((pattern =? "*") || (pattern =? "(.*)"))%bool eqn:Hu; simpl in H.
    + destruct (existsb _ methods); [discriminate | reflexivity].
    + destruct (path_to_regexp_match pattern (pathname req)) as [m|];
        [|discriminate].
      destruct (JS.truthy_string (path m)); simpl in H; [|discriminate].
      destruct (existsb _ methods); [discriminate | reflexivity].
  - destruct ((pattern =? "*") || (pattern =? "(.*)"))%bool eqn:Hu; simpl in H.
    + now left.
    + destruct (path_to_regexp_match pattern (pathname req)) as [m|];
        [|discriminate].
      right. exists m. split; [reflexivity|].
      unfold JS.truthy_string in H.
      destruct (path m =? "") eqn:E; simpl in H; [discriminate|].
      now apply String.eqb_neq in E.
  - intros [Hu | [m [Hm Hp]]].
    + rewrite Hu. simpl. now destruct (existsb _ methods).
    + destruct ((pattern =? "*") || (pattern =? "(.*)"))%bool; simpl.
      * now destruct (existsb _ methods).
      * rewrite Hm. unfold JS.truthy_string.
        apply String.eqb_neq in Hp. rewrite Hp. simpl.
        now destruct (existsb _ methods).
Qed.

Lemma single_wildcard (trusted : list string) :
  ((length trusted =? 1)%nat && (nth 0 trusted "" =? "*"))%bool = true <->
  trusted = ["*"].
Proof.
  split.
  - intro H. apply andb_prop in H. destruct H as [Hl Hw].
    destruct trusted as [|t [|u trusted]]; try discriminate.
    simpl in Hw. apply String.eqb_eq in Hw. now subst.
  - intro H. subst. reflexivity.
Qed.

(** C6, as amended. With a trusted list other than the single wildcard,
    the preflight handler answers 200 exactly when the request has an
    [Origin] header that equals an entry of the list, letter case apart
    (and is not empty), and 403 otherwise: so with an empty list and
    without an [Origin] header. When it answers 200, the
    [Access-Control-Allow-Origin] header is the lower-cased value of the
    request's [Origin] header. Letter case is what
    [String.prototype.toLowerCase] folds, whatever letters that is: the
    statement holds for every such function. *)
Theorem preflightHandler_trusted_origin
    (opts : AutoCorsPreflightOptions) (req : EReq) (res : ERes) :
  trustedOrigins opts <> ["*"] ->
  let '(_, res', k) := Router.preflightHandler opts req res in
  k = Normal /\
  (status res' = 200%Z \/ status res' = 403%Z) /\
  (status res' = 200%Z <->
   exists o, Headers.get "origin" (req_headers req) = Some o /\
             originMatches (trustedOrigins opts) o = true /\
             String_toLowerCase o <> "") /\
  (trustedOrigins opts = [] \/ Headers.get "origin" (req_headers req) = None ->
   status res' = 403%Z) /\
  (forall o, status res' = 200%Z ->
             Headers.get "origin" (req_headers req) = Some o ->
             allowOrigin res' = Some (String_toLowerCase o)).
Proof.
  intro Hw. unfold Router.preflightHandler, originMatches, allowOrigin.
  destruct (trustedOrigins opts) as [|t ts] eqn:Et.
  { simpl. repeat split; try (now right); try discriminate.
    intros [o [_ [H _]]]. discriminate. }
  cbn [length Nat.eqb].
  destruct (((length ts =? 0)%nat && (nth 0 (t :: ts) "" =? "*"))%bool) eqn:Es.
  { exfalso. apply Hw. apply single_wildcard. exact Es. }
  destruct (Headers.has "origin" (req_headers req)) eqn:Hh.
  2:{ assert (Hg : Headers.get "origin" (req_headers req) = None).
      { destruct (Headers.get "origin" (req_headers req)) eqn:G; [|reflexivity].
        assert (Hx : Headers.has "origin" (req_headers req) = true)
          by (apply has_get; congruence).
        congruence. }
      simpl. rewrite Hg. repeat split; try (now right); try discriminate.
      intros [o [H _]]. discriminate. }
  destruct (Headers.get "origin" (req_headers req)) as [o|] eqn:Hg.
  2:{ simpl. repeat split; try (now right); try discriminate.
      intros [o [H _]]. discriminate. }
  destruct (existsb (fun trustedOrigin =>
                       String_toLowerCase trustedOrigin =? String_toLowerCase o)
                    (t :: ts)) eqn:He; simpl in He.
  2:{ simpl. repeat split; try (now right); try discriminate.
      intros [o' [H1 [H2 _]]]. inversion H1; subst. congruence. }
  unfold JS.truthy_string.
  destruct (String_toLowerCase o =? "") eqn:Eo; simpl.
  - repeat split; try (now right); try discriminate.
    intros [o' [H1 [_ H3]]]. inversion H1; subst.
    apply String.eqb_eq in Eo. contradiction.
  - repeat split; try (now left).
    + intros _. exists o. repeat split; [exact He|].
      now apply String.eqb_neq in Eo.
    + intros [H|H]; discriminate.
    + intros o' _ H1. inversion H1; subst. apply get_set.
Qed.

(** ** Properties of the two chains *)

(** An ended response stops the request chain before any check. *)
Lemma requestLoop_ended (i : nat) (hs : list RequestHandler)
    (l : Router.Locals) (c : Ctx) :
  hasEnded (c_res c) = true -> Router.requestLoop i hs l c = (l, c, Normal).
Proof. intro H. destruct hs; simpl; [reflexivity | now rewrite H]. Qed.

Lemma errorLoop_ended (i : nat) (hs : list ErrorMiddleware) (err : JSError)
    (c : Ctx) :
  hasEnded (c_res c) = true -> Router.errorLoop i hs err c = (c, Normal).
Proof. intro H. destruct hs; simpl; [reflexivity | now rewrite H]. Qed.

Lemma app_self_nil (A : Type) (xs ys : list A) : xs = xs ++ ys -> ys = [].
Proof.
  intro H. rewrite <- (app_nil_r xs) in H at 1.
  apply app_inv_head in H. now symmetry.
Qed.

Lemma endedAfter_app (o : bool) (a b : list Event) :
  endedAfter o (a ++ b) = endedAfter (endedAfter o a) b.
Proof. unfold endedAfter. apply fold_left_app. Qed.

(** The request loop against its log: what it appends has the shape of
    [requestLog], the array of allowed methods grows by the non-empty
    mismatches logged, [checkResult] is the last check logged, and
    [res.hasEnded] is as the last callback logged left it. *)
Lemma requestLoop_log (hs : list RequestHandler) :
  forall (i : nat) (l : Router.Locals) (c : Ctx) l' c' k,
  Router.requestLoop i hs l c = (l', c', k) ->
  exists new,
    c_log c' = c_log c ++ new /\
    requestLog i new /\
    Router.allowedMethods l' = Router.allowedMethods l ++ accumulated new /\
    Router.checkResult l' = lastCheck (Router.checkResult l) new /\
    hasEnded (c_res c') = endedAfter (hasEnded (c_res c)) new.
Proof.
  induction hs as [|a rest IH]; intros i l c l' c' k H.
  - inversion H; subst. exists []. rewrite !app_nil_r.
    refine (conj _ (conj _ (conj _ (conj _ _)))); try reflexivity. constructor.
  - simpl in H. destruct (hasEnded (c_res c)) eqn:Eend.
    { inversion H; subst. exists []. rewrite !app_nil_r, Eend.
      refine (conj _ (conj _ (conj _ (conj _ _)))); try reflexivity.
      constructor. }
    destruct (check a (c_req c)) as [r req1] eqn:Ec.
    destruct r as [| |ms].
    + simpl in H.
      destruct (run a req1 (c_res c)) as [[req2 res2] k2] eqn:Er.
      destruct k2 as [|e].
      * destruct (hasEnded res2) eqn:E2.
        -- rewrite requestLoop_ended in H by exact E2.
           inversion H; subst. simpl.
           exists [RequestChecked i Matched; RequestRan i true].
           rewrite <- app_assoc. simpl.
           refine (conj _ (conj _ (conj _ (conj _ _)))); try reflexivity.
           ++ apply requestLog_stop.
           ++ now rewrite app_nil_r.
           ++ exact E2.
        -- apply IH in H. destruct H as [new [Hl [Hs [Ha [Hc He]]]]].
           simpl in *.
           exists (RequestChecked i Matched :: RequestRan i false :: new).
           rewrite Hl, <- !app_assoc. simpl.
           refine (conj _ (conj _ (conj _ (conj _ _)))); try assumption.
           ++ reflexivity.
           ++ now apply requestLog_run.
           ++ now rewrite <- E2.
      * inversion H; subst. simpl.
        exists [RequestChecked i Matched; RequestRan i (hasEnded res2)].
        rewrite <- app_assoc. simpl.
        refine (conj _ (conj _ (conj _ (conj _ _)))); try reflexivity.
        -- apply requestLog_stop.
        -- now rewrite app_nil_r.
    + apply IH in H. destruct H as [new [Hl [Hs [Ha [Hc He]]]]]. simpl in *.
      rewrite Eend in He.
      exists (RequestChecked i NotFound :: new).
      rewrite Hl, <- !app_assoc. simpl.
      refine (conj _ (conj _ (conj _ (conj _ _)))); try assumption.
      * reflexivity.
      * apply requestLog_skip; [discriminate | assumption].
    + apply IH in H. destruct H as [new [Hl [Hs [Ha [Hc He]]]]]. simpl in *.
      rewrite Eend in He.
      exists (RequestChecked i (MethodMismatch ms) :: new).
      rewrite Hl, <- !app_assoc. simpl.
      refine (conj _ (conj _ (conj _ (conj _ _)))); try assumption.
      * reflexivity.
      * apply requestLog_skip; [discriminate | assumption].
      * rewrite Ha. destruct (JS.truthy_length (length ms)).
        -- now rewrite <- app_assoc.
        -- reflexivity.
Qed.

Lemma errorLoop_log (hs : list ErrorMiddleware) (err : JSError) :
  forall (i : nat) (c : Ctx) c' k,
  Router.errorLoop i hs err c = (c', k) ->
  exists new, c_log c' = c_log c ++ new /\ errorLog i new.
Proof.
  induction hs as [|eH rest IH]; intros i c c' k H.
  - inversion H; subst. exists []. rewrite app_nil_r. split; [reflexivity|constructor].
  - simpl in H. destruct (hasEnded (c_res c)) eqn:Eend.
    { inversion H; subst. exists []. rewrite app_nil_r.
      split; [reflexivity|constructor]. }
    destruct (e_check eH (c_req c)) as [r req1] eqn:Ec.
    destruct r as [| |ms].
    + simpl in H.
      destruct (e_run eH err req1 (c_res c)) as [[req2 res2] k2] eqn:Er.
      destruct k2 as [|e].
      * destruct (hasEnded res2) eqn:E2.
        -- rewrite errorLoop_ended in H by exact E2.
           inversion H; subst. simpl.
           exists [ErrorChecked i Matched; ErrorRan i true].
           rewrite <- app_assoc. split; [reflexivity | apply errorLog_stop].
        -- apply IH in H. destruct H as [new [Hl Hs]]. simpl in *.
           exists (ErrorChecked i Matched :: ErrorRan i false :: new).
           rewrite Hl, <- !app_assoc.
           split; [reflexivity | now apply errorLog_run].
      * inversion H; subst. simpl.
        exists [ErrorChecked i Matched; ErrorRan i (hasEnded res2)].
        rewrite <- app_assoc. split; [reflexivity | apply errorLog_stop].
    + apply IH in H. destruct H as [new [Hl Hs]]. simpl in *.
      exists (ErrorChecked i NotFound :: new). rewrite Hl, <- !app_assoc.
      split; [reflexivity | apply errorLog_skip; [discriminate | assumption]].
    + apply IH in H. destruct H as [new [Hl Hs]]. simpl in *.
      exists (ErrorChecked i (MethodMismatch ms) :: new).
      rewrite Hl, <- !app_assoc.
      split; [reflexivity | apply errorLog_skip; [discriminate | assumption]].
Qed.

(** Splitting a log at one of its entries. *)
Ltac split_log H :=
  match type of H with
  | _ :: _ = ?pre ++ _ :: _ =>
      destruct pre; simpl in H; inversion H; subst; clear H
  | [] = ?pre ++ _ :: _ =>
      destruct pre; simpl in H; discriminate H
  end.

Lemma requestLog_stops (i : nat) (log : list Event) :
  requestLog i log -> stopsWhenEnded log.
Proof.
  unfold stopsWhenEnded.
  induction 1 as [i|i r rest Hr Hrest IH|i rest Hrest IH|i b];
    intros pre e post Heq He.
  - split_log Heq.
  - split_log Heq; [discriminate He | eauto].
  - split_log Heq; [discriminate He|].
    match goal with E : _ :: _ = _ ++ _ :: _ |- _ => split_log E end;
      [discriminate He | eauto].
  - split_log Heq; [discriminate He|].
    match goal with E : _ :: _ = _ ++ _ :: _ |- _ => split_log E end;
      [reflexivity|].
    match goal with E : [] = _ ++ _ :: _ |- _ => split_log E end.
Qed.

Lemma errorLog_stops (i : nat) (log : list Event) :
  errorLog i log -> stopsWhenEnded log.
Proof.
  unfold stopsWhenEnded.
  induction 1 as [i|i r rest Hr Hrest IH|i rest Hrest IH|i b];
    intros pre e post Heq He.
  - split_log Heq.
  - split_log Heq; [discriminate He | eauto].
  - split_log Heq; [discriminate He|].
    match goal with E : _ :: _ = _ ++ _ :: _ |- _ => split_log E end;
      [discriminate He | eauto].
  - split_log Heq; [discriminate He|].
    match goal with E : _ :: _ = _ ++ _ :: _ |- _ => split_log E end;
      [reflexivity|].
    match goal with E : [] = _ ++ _ :: _ |- _ => split_log E end.
Qed.

Lemma requestLog_position (i : nat) (log : list Event) :
  requestLog i log -> forall e, In e log -> i <= position e.
Proof.
  induction 1 as [i|i r rest Hr Hrest IH|i rest Hrest IH|i b];
    intros e Hin; simpl in Hin.
  - contradiction.
  - destruct Hin as [<-|Hin]; [simpl; lia|].
    apply IH in Hin. lia.
  - destruct Hin as [<-|[<-|Hin]]; [simpl; lia | simpl; lia|].
    apply IH in Hin. lia.
  - destruct Hin as [<-|[<-|[]]]; simpl; lia.
Qed.

(** A handler whose check returned a method mismatch has no callback entry. *)
Lemma requestLog_mismatch_not_run (i : nat) (log : list Event) :
  requestLog i log ->
  forall j ms b, In (RequestChecked j (MethodMismatch ms)) log ->
                 ~ In (RequestRan j b) log.
Proof.
  induction 1 as [i|i r rest Hr Hrest IH|i rest Hrest IH|i b0];
    intros j ms b Hin Hran; simpl in Hin, Hran.
  - contradiction.
  - destruct Hran as [Hran|Hran]; [discriminate|].
    destruct Hin as [Hin|Hin].
    + inversion Hin; subst.
      apply (requestLog_position _ _ Hrest) in Hran. simpl in Hran. lia.
    + exact (IH j ms b Hin Hran).
  - destruct Hin as [Hin|[Hin|Hin]]; try discriminate.
    destruct Hran as [Hran|[Hran|Hran]]; try discriminate.
    + inversion Hran; subst.
      apply (requestLog_position _ _ Hrest) in Hin. simpl in Hin. lia.
    + exact (IH j ms b Hin Hran).
  - destruct Hin as [Hin|[Hin|[]]]; discriminate.
Qed.

(** A callback entry follows the entry of a check that matched. *)
Lemma requestLog_run_matched (i : nat) (log : list Event) :
  requestLog i log ->
  forall j b, In (RequestRan j b) log -> In (RequestChecked j Matched) log.
Proof.
  induction 1 as [i|i r rest Hr Hrest IH|i rest Hrest IH|i b0];
    intros j b Hin; simpl in Hin.
  - contradiction.
  - destruct Hin as [Hin|Hin]; [discriminate|]. right. eauto.
  - destruct Hin as [Hin|[Hin|Hin]]; [discriminate| |].
    + inversion Hin; subst. now left.
    + right. right. eauto.
  - destruct Hin as [Hin|[Hin|[]]]; [discriminate|].
    inversion Hin; subst. now left.
Qed.

(** The request chain of a dispatch against the log it leaves. *)
Lemma requestLoop_initial (r : Router.t) (ev : FetchEvent) l c1 k :
  Router.requestLoop 0 (Router.requestHandlers r) Router.noLocals (initialCtx ev)
    = (l, c1, k) ->
  requestLog 0 (c_log c1) /\
  Router.allowedMethods l = accumulated (c_log c1) /\
  Router.checkResult l = lastCheck None (c_log c1) /\
  hasEnded (c_res c1) = endedAfter false (c_log c1).
Proof.
  intro H. apply requestLoop_log in H.
  destruct H as [new [Hl [Hs [Ha [Hc He]]]]]. simpl in *. subst new.
  auto.
Qed.

Lemma runRequestHandlers_unfold (r : Router.t) (c : Ctx) l c1 k :
  Router.requestLoop 0 (Router.requestHandlers r) Router.noLocals c = (l, c1, k) ->
  Router.runRequestHandlers r c =
  (c1, match k with Normal => Router.afterLoop l | Throw e => Throw e end).
Proof.
  intro H. unfold Router.runRequestHandlers. rewrite H. now destruct k.
Qed.

Lemma truthy_length_nonempty (A : Type) (xs : list A) :
  JS.truthy_length (length xs) = true <-> xs <> [].
Proof.
  destruct xs; simpl; split; intro H;
    try discriminate; try (now elim H); reflexivity.
Qed.

Lemma accumulated_In (log : list Event) (i : nat) (ms : list string) :
  In (RequestChecked i (MethodMismatch ms)) log -> ms <> [] ->
  In ms (accumulated log).
Proof.
  intros Hin Hne. unfold accumulated. apply in_flat_map.
  exists (RequestChecked i (MethodMismatch ms)). split; [exact Hin|].
  apply truthy_length_nonempty in Hne. rewrite Hne. now left.
Qed.

Lemma afterLoop_mismatch (l : Router.Locals) :
  Router.allowedMethods l <> [] ->
  Router.afterLoop l = Throw (ErrorMethodNotAllowed (Router.allowedMethods l)).
Proof.
  intro H. unfold Router.afterLoop.
  apply truthy_length_nonempty in H. now rewrite H.
Qed.

Lemma afterLoop_no_mismatch (l : Router.Locals) :
  Router.allowedMethods l = [] ->
  Router.afterLoop l = match Router.checkResult l with
                       | Some NotFound => Throw ErrorNotFound
                       | _ => Normal
                       end.
Proof. intro H. unfold Router.afterLoop. now rewrite H. Qed.

(** The default error handler never throws, leaves the request alone and
    ends the response. *)
Lemma defaultErrorHandler_ends (auto405 : bool) (err : JSError) (req : EReq)
    (res : ERes) :
  exists res', Router.defaultErrorHandler auto405 err req res = (req, res', Normal) /\
               hasEnded res' = true /\ status res' <> 0%Z.
Proof.
  destruct err as [|allowed|message]; simpl.
  - eexists. repeat split. simpl. discriminate.
  - destruct auto405; simpl; eexists; repeat split; simpl; discriminate.
  - eexists. repeat split. simpl. discriminate.
Qed.

Lemma defaultErrorHandler_method (auto405 : bool) (allowed : list (list string))
    (req : EReq) (res : ERes) res' :
  Router.defaultErrorHandler auto405 (ErrorMethodNotAllowed allowed) req res
    = (req, res', Normal) ->
  status res' = (if auto405 then 405 else 404)%Z /\
  (auto405 = true ->
   Headers.get "Allow" (entries (headers res')) = Some (allow allowed)).
Proof.
  simpl. destruct auto405; simpl; intro H; inversion H; subst; simpl.
  - split; [reflexivity|]. intros _. apply get_set.
  - split; [reflexivity|]. discriminate.
Qed.

Lemma defaultErrorHandler_status (auto405 : bool) (err : JSError)
    (req : EReq) (res : ERes) req' res' k :
  Router.defaultErrorHandler auto405 err req res = (req', res', k) ->
  status res' = 404%Z \/ status res' = 405%Z \/ status res' = 500%Z.
Proof.
  destruct err as [|allowed|message]; simpl.
  - intro H. inversion H. now left.
  - destruct auto405; simpl; intro H; inversion H; [right; now left | now left].
  - intro H. inversion H. right. now right.
Qed.

(** A status the constructor takes with any body: the promise resolves. *)
Lemma settle_status (res : ERes) :
  (200 <= status res <= 599)%Z -> nullBodyStatus (status res) = false ->
  Router.settle res = Router.Resolved (Router.serializeResponse res).
Proof.
  intros Hr Hn. unfold Router.settle, Router.serializeResponse_checked.
  rewrite serializeResponse_status_set by lia.
  unfold Response_init_error. rewrite Hn.
  assert (E : ((status res <? 200) || (599 <? status res))%Z = false).
  { apply orb_false_intro; apply Z.ltb_ge; lia. }
  rewrite E. now destruct (body res).
Qed.

Lemma settle_error_status (res : ERes) :
  status res = 404%Z \/ status res = 405%Z \/ status res = 500%Z ->
  Router.settle res = Router.Resolved (Router.serializeResponse res).
Proof.
  intros [H|[H|H]]; apply settle_status; rewrite H; try lia; reflexivity.
Qed.

(** With nothing but copies of the default handler in the error chain and
    the response not ended, the first copy answers and the rest is
    skipped. *)
Lemma errorLoop_default (r : Router.t) (err : JSError) (hs : list ErrorMiddleware)
    (i : nat) (c : Ctx) res' :
  hs <> [] ->
  Forall (eq (Router.defaultErrorMiddleware r)) hs ->
  hasEnded (c_res c) = false ->
  Router.defaultErrorHandler (auto405 (Router.config r)) err (c_req c) (c_res c)
    = (c_req c, res', Normal) ->
  hasEnded res' = true ->
  exists c2, Router.errorLoop i hs err c = (c2, Normal) /\ c_res c2 = res'.
Proof.
  intros Hne Hall Hend Hd Hres.
  destruct hs as [|eH rest]; [now elim Hne|].
  inversion Hall as [|? ? Heq _]; subst.
  simpl. rewrite Hend. simpl. rewrite Hd.
  rewrite errorLoop_ended by exact Hres.
  eexists. split; reflexivity.
Qed.

Lemma handler_default_only (r : Router.t) (ev : FetchEvent) (c1 : Ctx)
    (e : JSError) res' :
  Router.runRequestHandlers r (initialCtx ev) = (c1, Throw e) ->
  hasEnded (c_res c1) = false ->
  Forall (eq (Router.defaultErrorMiddleware r)) (Router.errorHandlers r) ->
  Router.defaultErrorHandler (auto405 (Router.config r)) e (c_req c1) (c_res c1)
    = (c_req c1, res', Normal) ->
  hasEnded res' = true ->
  Router.d_settled (Router.handler r ev) = Router.Resolved (Router.serializeResponse res') /\
  c_res (Router.d_ctx (Router.handler r ev)) = res'.
Proof.
  intros Hrun Hend Hall Hd Hres.
  unfold Router.handler. rewrite Hrun.
  unfold Router.runErrorHandlers.
  destruct (errorLoop_default r e
              (Router.errorHandlers
                 (Router.use None
                    (ErrorCallback (Router.defaultErrorHandler
                                      (auto405 (Router.config r)))) r))
              0 c1 res') as [c2 [H2 Hc2]]; try assumption.
  - simpl. now destruct (Router.errorHandlers r).
  - simpl. apply Forall_app. split; [exact Hall|]. constructor; [reflexivity|constructor].
  - rewrite H2. simpl. rewrite Hc2. split; [|reflexivity].
    apply settle_error_status. eapply defaultErrorHandler_status. exact Hd.
Qed.

(** C1, as amended. In a dispatch whose request loop runs to its end
    without a callback throwing, and in which some handler's check returned
    a method mismatch with a non-empty method array, the request chain
    fails with [ErrorMethodNotAllowed] carrying every non-empty array the
    checks returned, in order, and so never with [ErrorNotFound]. When
    moreover no handler ended the response and the error chain holds
    nothing but the default handler, the dispatch answers 405 with the
    [Allow] header of these methods if auto405 is on, and 404 if not. *)
Theorem methodMismatch_over_notFound
    (r : Router.t) (ev : FetchEvent) (l : Router.Locals) (c1 : Ctx) :
  Router.requestLoop 0 (Router.requestHandlers r) Router.noLocals (initialCtx ev)
    = (l, c1, Normal) ->
  (exists i ms, In (RequestChecked i (MethodMismatch ms)) (c_log c1) /\ ms <> []) ->
  Router.runRequestHandlers r (initialCtx ev) =
    (c1, Throw (ErrorMethodNotAllowed (accumulated (c_log c1)))) /\
  (forall i ms, In (RequestChecked i (MethodMismatch ms)) (c_log c1) ->
                ms <> [] -> In ms (accumulated (c_log c1))) /\
  (hasEnded (c_res c1) = false ->
   Forall (eq (Router.defaultErrorMiddleware r)) (Router.errorHandlers r) ->
   exists response,
     Router.d_settled (Router.handler r ev) = Router.Resolved response /\
     r_status response = (if auto405 (Router.config r) then 405 else 404)%Z /\
     (auto405 (Router.config r) = true ->
      Headers.get "Allow"
        (entries (headers (c_res (Router.d_ctx (Router.handler r ev))))) =
      Some (allow (accumulated (c_log c1))))).
Proof.
  intros Hloop [i [ms [Hin Hne]]].
  destruct (requestLoop_initial _ _ _ _ _ Hloop) as [Hs [Ha [Hc He]]].
  assert (Hacc : Router.allowedMethods l <> []).
  { rewrite Ha. intro E. apply (accumulated_In _ _ _ Hin) in Hne.
    rewrite E in Hne. contradiction. }
  assert (Hrun : Router.runRequestHandlers r (initialCtx ev) =
                 (c1, Throw (ErrorMethodNotAllowed (accumulated (c_log c1))))).
  { rewrite (runRequestHandlers_unfold _ _ _ _ _ Hloop).
    rewrite afterLoop_mismatch by exact Hacc. now rewrite Ha. }
  split; [exact Hrun|]. split.
  { intros j ms' Hj Hms'. exact (accumulated_In _ _ _ Hj Hms'). }
  intros Hend Hall.
  destruct (defaultErrorHandler_ends (auto405 (Router.config r))
              (ErrorMethodNotAllowed (accumulated (c_log c1)))
              (c_req c1) (c_res c1)) as [res' [Hd [Hres Hst]]].
  destruct (handler_default_only _ _ _ _ _ Hrun Hend Hall Hd Hres) as [Hset Hctx].
  pose proof Hd as Hm. apply defaultErrorHandler_method in Hm.
  destruct Hm as [H405 Hallow].
  exists (Router.serializeResponse res'). split; [exact Hset|]. split.
  - rewrite serializeResponse_status_set by exact Hst. exact H405.
  - rewrite Hctx. exact Hallow.
Qed.

(** C2, as amended. In a dispatch whose request loop runs to its end
    without a callback throwing, the request chain fails with
    [ErrorNotFound] exactly when no non-empty method mismatch was
    accumulated and the last check evaluated returned [NotFound]; checks
    that matched before the last one do not prevent it. *)
Theorem notFound_is_last_check
    (r : Router.t) (ev : FetchEvent) (l : Router.Locals) (c1 : Ctx) :
  Router.requestLoop 0 (Router.requestHandlers r) Router.noLocals (initialCtx ev)
    = (l, c1, Normal) ->
  (snd (Router.runRequestHandlers r (initialCtx ev)) = Throw ErrorNotFound <->
   accumulated (c_log c1) = [] /\ lastCheck None (c_log c1) = Some NotFound).
Proof.
  intro Hloop.
  destruct (requestLoop_initial _ _ _ _ _ Hloop) as [Hs [Ha [Hc He]]].
  rewrite (runRequestHandlers_unfold _ _ _ _ _ Hloop). simpl.
  rewrite <- Ha, <- Hc.
  destruct (Router.allowedMethods l) as [|m ms] eqn:Em.
  - rewrite afterLoop_no_mismatch by exact Em.
    destruct (Router.checkResult l) as [[| |ms']|]; split;
      try discriminate; try (intros [_ H]; discriminate); auto.
  - rewrite afterLoop_mismatch by (rewrite Em; discriminate).
    split; [discriminate | intros [H _]; discriminate].
Qed.

(** C3, as amended. A handler whose check returned a method mismatch has
    its callback not invoked; its methods are pushed (when the array is not
    empty) and nothing else happens. After a loop that ran to its end
    without a callback throwing, the chain fails with
    [ErrorMethodNotAllowed] exactly when something was pushed, whether or
    not other handlers matched and ran. *)
Theorem methodMismatch_accumulates
    (r : Router.t) (ev : FetchEvent) (l : Router.Locals) (c1 : Ctx)
    (k : Completion) :
  Router.requestLoop 0 (Router.requestHandlers r) Router.noLocals (initialCtx ev)
    = (l, c1, k) ->
  (forall i ms b, In (RequestChecked i (MethodMismatch ms)) (c_log c1) ->
                  ~ In (RequestRan i b) (c_log c1)) /\
  Router.allowedMethods l = accumulated (c_log c1) /\
  (k = Normal ->
   (accumulated (c_log c1) <> [] ->
    snd (Router.runRequestHandlers r (initialCtx ev)) =
    Throw (ErrorMethodNotAllowed (accumulated (c_log c1)))) /\
   (accumulated (c_log c1) = [] ->
    forall a, snd (Router.runRequestHandlers r (initialCtx ev)) <>
              Throw (ErrorMethodNotAllowed a))).
Proof.
  intro Hloop.
  destruct (requestLoop_initial _ _ _ _ _ Hloop) as [Hs [Ha [Hc He]]].
  split; [exact (requestLog_mismatch_not_run _ _ Hs)|].
  split; [exact Ha|].
  intro Hk. subst k. rewrite (runRequestHandlers_unfold _ _ _ _ _ Hloop). simpl.
  rewrite <- Ha. split; intro H.
  - now rewrite afterLoop_mismatch.
  - rewrite afterLoop_no_mismatch by exact H.
    intro a. destruct (Router.checkResult l) as [[| |ms']|]; discriminate.
Qed.

Lemma handler_ctx (r : Router.t) (ev : FetchEvent) :
  Router.d_ctx (Router.handler r ev) =
  match Router.runRequestHandlers r (initialCtx ev) with
  | (c1, Normal) => c1
  | (c1, Throw err) =>
      fst (Router.runErrorHandlers
             (Router.use None
                (ErrorCallback (Router.defaultErrorHandler
                                  (auto405 (Router.config r)))) r) err c1)
  end.
Proof.
  unfold Router.handler.
  destruct (Router.runRequestHandlers r (initialCtx ev)) as [c1 [|err]];
    [reflexivity|].
  destruct (Router.runErrorHandlers _ err c1) as [c2 [|e]]; reflexivity.
Qed.

(** The log of a dispatch: what the request chain logged, then what the
    error chain logged, which is nothing when the request chain left the
    response ended. *)
Lemma handler_log (r : Router.t) (ev : FetchEvent) :
  exists a b,
    c_log (Router.d_ctx (Router.handler r ev)) = a ++ b /\
    requestLog 0 a /\ errorLog 0 b /\
    (endedAfter false a = true -> b = []).
Proof.
  rewrite handler_ctx.
  destruct (Router.requestLoop 0 (Router.requestHandlers r) Router.noLocals
              (initialCtx ev)) as [[l c1] k] eqn:Hloop.
  rewrite (runRequestHandlers_unfold _ _ _ _ _ Hloop).
  destruct (requestLoop_initial _ _ _ _ _ Hloop) as [Hs [_ [_ He]]].
  assert (Herr : forall r' err,
            exists b, c_log (fst (Router.runErrorHandlers r' err c1)) = c_log c1 ++ b /\
                      errorLog 0 b /\ (endedAfter false (c_log c1) = true -> b = [])).
  { intros r' err. unfold Router.runErrorHandlers.
    destruct (Router.errorLoop 0 (Router.errorHandlers r') err c1) as [c2 k2] eqn:E.
    pose proof E as E'. apply errorLoop_log in E'.
    destruct E' as [b [Hb Hshape]]. exists b. simpl.
    split; [exact Hb|]. split; [exact Hshape|].
    intro Hended. rewrite <- He in Hended.
    rewrite errorLoop_ended in E by exact Hended.
    inversion E; subst. now apply app_self_nil in Hb. }
  assert (Hnone : exists a b, c_log c1 = a ++ b /\ requestLog 0 a /\
                              errorLog 0 b /\ (endedAfter false a = true -> b = [])).
  { exists (c_log c1), []. rewrite app_nil_r.
    repeat split; [exact Hs | constructor]. }
  destruct k as [|e].
  - destruct (Router.afterLoop l) as [|err]; [exact Hnone|].
    destruct (Herr (Router.use None
                      (ErrorCallback (Router.defaultErrorHandler
                                        (auto405 (Router.config r)))) r) err)
      as [b [Hb [Hshape Hnil]]].
    exists (c_log c1), b. auto.
  - destruct (Herr (Router.use None
                      (ErrorCallback (Router.defaultErrorHandler
                                        (auto405 (Router.config r)))) r) e)
      as [b [Hb [Hshape Hnil]]].
    exists (c_log c1), b. auto.
Qed.

Lemma endedAfter_last (o : bool) (pre : list Event) (e : Event) :
  ranEnded e = true -> endedAfter o (pre ++ [e]) = true.
Proof.
  intro H. rewrite endedAfter_app. simpl.
  destruct e; simpl in *; try discriminate; exact H.
Qed.

(** C9. In the log of a dispatch nothing follows the entry of a callback,
    of a request handler or of an error handler, that left the response
    ended: no later handler of the request chain is checked or run, whether
    or not its check would have matched, and none of the error chain. *)
Theorem ended_response_stops_dispatch
    (r : Router.t) (ev : FetchEvent) (pre : list Event) (e : Event)
    (post : list Event) :
  c_log (Router.d_ctx (Router.handler r ev)) = pre ++ e :: post ->
  ranEnded e = true ->
  post = [].
Proof.
  intros Hlog He.
  destruct (handler_log r ev) as [a [b [Hab [Ha [Hb Hnil]]]]].
  rewrite Hab in Hlog.
  apply app_eq_app in Hlog. destruct Hlog as [m [[Hpre Hm]|[Hpre Hm]]].
  - (* the entry is one of the request chain, or the first of the error chain *)
    destruct m as [|x m]; simpl in Hm.
    + apply (errorLog_stops _ _ Hb [] e post); [simpl; congruence | exact He].
    + assert (Hx : x = e /\ post = m ++ b) by (split; congruence).
      destruct Hx as [-> ->].
      assert (m = []).
      { apply (requestLog_stops _ _ Ha pre e m); [congruence | exact He]. }
      subst m. simpl.
      apply Hnil. rewrite Hpre. now apply endedAfter_last.
  - (* the entry is one of the error chain *)
    apply (errorLog_stops _ _ Hb m e post); [congruence | exact He].
Qed.

(** What a dispatch does to the router: it files the default error handler
    when the request chain failed, and nothing else. *)
Lemma handler_router (r : Router.t) (ev : FetchEvent) :
  Router.d_router (Router.handler r ev) =
  if chainFails r ev
  then Router.use None
         (ErrorCallback (Router.defaultErrorHandler (auto405 (Router.config r)))) r
  else r.
Proof.
  unfold Router.handler, chainFails.
  destruct (Router.runRequestHandlers r (initialCtx ev)) as [c1 [|err]];
    [reflexivity|]. simpl.
  destruct (Router.runErrorHandlers _ err c1) as [c2 [|e]]; reflexivity.
Qed.

(** Whether the request chain fails depends on the request handlers only. *)
Lemma chainFails_requestHandlers (r r' : Router.t) (ev : FetchEvent) :
  Router.requestHandlers r' = Router.requestHandlers r ->
  chainFails r' ev = chainFails r ev.
Proof.
  intro H. unfold chainFails, Router.runRequestHandlers. now rewrite H.
Qed.

Lemma dispatchAll_errorHandlers (r0 : Router.t) (events : list FetchEvent) :
  Forall (fun ev => chainFails r0 ev = true) events ->
  forall r : Router.t,
  Router.requestHandlers r = Router.requestHandlers r0 ->
  Router.config r = Router.config r0 ->
  Router.errorHandlers (Router.dispatchAll r events) =
  Router.errorHandlers r ++
  repeat (Router.defaultErrorMiddleware r0) (length events) /\
  Router.requestHandlers (Router.dispatchAll r events) = Router.requestHandlers r0.
Proof.
  induction 1 as [|ev events Hev Hall IH]; intros r Hh Hc; simpl.
  - now rewrite app_nil_r.
  - unfold Router.dispatchAll in *. simpl.
    rewrite handler_router, (@chainFails_requestHandlers r0 r ev Hh), Hev.
    destruct (IH (Router.use None
                    (ErrorCallback (Router.defaultErrorHandler
                                      (auto405 (Router.config r)))) r))
      as [He Hr]; try assumption.
    rewrite He, Hr. simpl. rewrite <- app_assoc. simpl.
    unfold Router.defaultErrorMiddleware. rewrite Hc. split; reflexivity.
Qed.

(** C10. After k dispatches on one router whose request chains all failed,
    the error chain is the one the router had before them followed by k
    copies of the default error handler: every failing dispatch files one
    more, and none is ever removed. The request handlers are as they
    were. *)
Theorem failing_dispatches_pile_up (r : Router.t) (events : list FetchEvent) :
  Forall (fun ev => chainFails r ev = true) events ->
  Router.errorHandlers (Router.dispatchAll r events) =
  Router.errorHandlers r ++
  repeat (Router.defaultErrorMiddleware r) (length events) /\
  Router.requestHandlers (Router.dispatchAll r events) = Router.requestHandlers r.
Proof.
  intro H. now apply dispatchAll_errorHandlers.
Qed.

End Properties.

(** ** The properties at work, and where the specification's wording fails *)

Section Examples.

#[local] Existing Instance demoPlatform.

(** [POST /x] on [use(passThrough); get("/x", sendOk)]: the chain fails
    with the methods of the route, and the dispatch answers 405. *)
Lemma methodMismatch_over_notFound_witness :
  let X := loopOf middlewareThenGet (request "POST" "/x") in
  X = (fst (fst X), snd (fst X), Normal) /\
  In (RequestChecked 1 (MethodMismatch ["GET"])) (c_log (snd (fst X))) /\
  snd (Router.runRequestHandlers middlewareThenGet (initialCtx (request "POST" "/x")))
    = Throw (ErrorMethodNotAllowed [["GET"]]) /\
  exists response,
    Router.d_settled (Router.handler middlewareThenGet (request "POST" "/x"))
      = Router.Resolved response /\ r_status response = 405%Z.
Proof.
  intro X.
  assert (H1 : X = (fst (fst X), snd (fst X), Normal)) by reflexivity.
  assert (H2 : In (RequestChecked 1 (MethodMismatch ["GET"])) (c_log (snd (fst X))))
    by (vm_compute; tauto).
  destruct (methodMismatch_over_notFound middlewareThenGet
              (request "POST" "/x") (fst (fst X)) (snd (fst X)) H1)
    as [Hrun [_ Hresp]].
  { exists 1, ["GET"]. split; [exact H2 | discriminate]. }
  split; [exact H1|]. split; [exact H2|]. split.
  - rewrite Hrun. reflexivity.
  - destruct Hresp as [response [Hs [Hst _]]].
    + reflexivity.
    + constructor.
    + exists response. split; [exact Hs | exact Hst].
Defined.

(** C1 as the specification words it fails on
    [get("/x", sendOk); use(boom)] at [POST /x]: the check of the route
    returns a method mismatch and no handler ends the response, yet the
    chain fails with the error the middleware threw, and the dispatch
    answers 500. *)
Lemma methodMismatch_then_throw :
  let run := Router.runRequestHandlers getThenBoom (initialCtx (request "POST" "/x")) in
  In (RequestChecked 0 (MethodMismatch ["GET"])) (c_log (fst run)) /\
  hasEnded (c_res (fst run)) = false /\
  snd run = Throw (OtherError "boom") /\
  (forall a, snd run <> Throw (ErrorMethodNotAllowed a)) /\
  exists response,
    Router.d_settled (Router.handler getThenBoom (request "POST" "/x"))
      = Router.Resolved response /\ r_status response = 500%Z.
Proof.
  intro run. repeat split.
  - vm_compute. tauto.
  - intro a. vm_compute. discriminate.
  - eexists. split; reflexivity.
Qed.

(** [GET /y] on [use(passThrough); get("/x", sendOk)]: the last check is
    [NotFound] and nothing was accumulated, so the chain fails with
    [ErrorNotFound]. *)
Lemma notFound_is_last_check_witness :
  let X := loopOf middlewareThenGet (request "GET" "/y") in
  X = (fst (fst X), snd (fst X), Normal) /\
  snd (Router.runRequestHandlers middlewareThenGet (initialCtx (request "GET" "/y")))
    = Throw ErrorNotFound.
Proof.
  intro X.
  assert (H1 : X = (fst (fst X), snd (fst X), Normal)) by reflexivity.
  split; [exact H1|].
  apply (proj2 (notFound_is_last_check middlewareThenGet
                  (request "GET" "/y") (fst (fst X)) (snd (fst X)) H1)).
  split; reflexivity.
Defined.

(** C2 as the specification words it fails at the same dispatch: the check
    of the middleware returned [Matched], and its callback ran, yet the
    chain fails with [ErrorNotFound]. *)
Lemma matched_then_notFound :
  let run := Router.runRequestHandlers middlewareThenGet (initialCtx (request "GET" "/y")) in
  In (RequestChecked 0 Matched) (c_log (fst run)) /\
  In (RequestRan 0 false) (c_log (fst run)) /\
  snd run = Throw ErrorNotFound.
Proof.
  intro run. repeat split; vm_compute; tauto.
Qed.

(** [POST /x] on [use(passThrough); get("/x", sendOk)]: the callback of
    the route is not run, its methods are pushed, and the chain fails with
    them. *)
Lemma methodMismatch_accumulates_witness :
  let X := loopOf middlewareThenGet (request "POST" "/x") in
  X = (fst (fst X), snd (fst X), Normal) /\
  ~ In (RequestRan 1 false) (c_log (snd (fst X))) /\
  Router.allowedMethods (fst (fst X)) = [["GET"]].
Proof.
  intro X.
  assert (H1 : X = (fst (fst X), snd (fst X), Normal)) by reflexivity.
  destruct (methodMismatch_accumulates middlewareThenGet
              (request "POST" "/x") (fst (fst X)) (snd (fst X)) Normal H1)
    as [Hnot [Hacc _]].
  split; [exact H1|]. split.
  - apply (Hnot 1 ["GET"] false). vm_compute. tauto.
  - rewrite Hacc. reflexivity.
Defined.

(** C3 as the specification words it fails at the same dispatch: the check
    of the middleware returned [Matched], and the accumulated mismatch
    makes the chain fail all the same. *)
Lemma matched_then_methodNotAllowed :
  let run := Router.runRequestHandlers middlewareThenGet (initialCtx (request "POST" "/x")) in
  In (RequestChecked 0 Matched) (c_log (fst run)) /\
  In (RequestRan 0 false) (c_log (fst run)) /\
  snd run = Throw (ErrorMethodNotAllowed [["GET"]]).
Proof.
  intro run. repeat split; vm_compute; tauto.
Qed.

(** [res.send("")] on a new response, and a dispatch on [use(sendEmpty)]:
    the constructor throws and the promise rejects. *)
Lemma empty_string_body_throws_witness :
  status emptyStringSent = 0%Z /\ body emptyStringSent = Some (BodyText "") /\
  Router.serializeResponse_checked emptyStringSent = inr TypeError /\
  Router.d_settled (Router.handler answerEmpty (request "GET" "/")) =
    Router.RejectedByResponse TypeError.
Proof.
  split; [reflexivity|]. split; [reflexivity|].
  destruct (empty_string_body_throws emptyStringSent
              (FPResponse.send (FPResponse.SendBody (Some (BodyText "")))
                               FPResponse.new)
              eq_refl eq_refl eq_refl eq_refl) as [Hc _].
  split; [exact Hc | reflexivity].
Defined.

(** The route [GET /x] on the demo platform: [/y] is not found whatever
    the method, [POST /x] is a method mismatch, [GET /x] matches. *)
Lemma routeMatcher_path_before_method_witness :
  fst (Router.routeMatcher Router.defaultConfig ["GET"] "/x"
         (ERequest_new (request "POST" "/y"))) = NotFound /\
  pathMatched "/x" (ERequest_new (request "POST" "/x")) /\
  fst (Router.routeMatcher Router.defaultConfig ["GET"] "/x"
         (ERequest_new (request "POST" "/x"))) = MethodMismatch ["GET"] /\
  fst (Router.routeMatcher Router.defaultConfig ["GET"] "/x"
         (ERequest_new (request "GET" "/x"))) = Matched.
Proof.
  assert (Hm : forall m, pathMatched "/x" (ERequest_new (request m "/x"))).
  { intro m. right. eexists. split; [reflexivity | discriminate]. }
  split.
  - destruct (routeMatcher_path_before_method Router.defaultConfig ["GET"] "/x"
                (ERequest_new (request "GET" "/y"))) as [Hnf _].
    apply Hnf; reflexivity.
  - split; [apply Hm|]. split.
    + destruct (routeMatcher_path_before_method Router.defaultConfig ["GET"] "/x"
                  (ERequest_new (request "POST" "/x"))) as [_ [_ Hmatch]].
      rewrite (Hmatch (Hm "POST")). reflexivity.
    + destruct (routeMatcher_path_before_method Router.defaultConfig ["GET"] "/x"
                  (ERequest_new (request "GET" "/x"))) as [_ [_ Hmatch]].
      rewrite (Hmatch (Hm "GET")). reflexivity.
Defined.

(** The scenario of the specification: with [https://a.com] trusted, a
    preflight from it is answered 200 with that origin allowed, and one
    from [https://b.com] is answered 403. *)
Lemma preflightHandler_trusted_origin_witness :
  trustedOrigins trustA <> ["*"] /\
  (let '(_, res', _) := Router.preflightHandler trustA (preflightFrom "https://a.com")
                          EResponse.new in
   status res' = 200%Z /\ allowOrigin res' = Some "https://a.com") /\
  (let '(_, res', _) := Router.preflightHandler trustA (preflightFrom "https://b.com")
                          EResponse.new in
   status res' = 403%Z).
Proof.
  assert (Hne : trustedOrigins trustA <> ["*"]) by discriminate.
  split; [exact Hne|]. split.
  - pose proof (preflightHandler_trusted_origin trustA
                  (preflightFrom "https://a.com") EResponse.new Hne) as H.
    destruct (Router.preflightHandler trustA (preflightFrom "https://a.com")
                EResponse.new) as [[req' res'] k].
    destruct H as [_ [_ [Hiff [_ Hallow]]]].
    assert (Hs : status res' = 200%Z).
    { apply Hiff. exists "https://a.com".
      split; [reflexivity|]. split; [reflexivity | discriminate]. }
    split; [exact Hs|]. exact (Hallow "https://a.com" Hs eq_refl).
  - pose proof (preflightHandler_trusted_origin trustA
                  (preflightFrom "https://b.com") EResponse.new Hne) as H.
    destruct (Router.preflightHandler trustA (preflightFrom "https://b.com")
                EResponse.new) as [[req' res'] k].
    destruct H as [_ [[H200|H403] [Hiff _]]]; [|exact H403].
    apply Hiff in H200. destruct H200 as [o [Ho [Hm _]]].
    inversion Ho; subst. discriminate Hm.
Defined.

(** C6 as the specification words it fails with the trusted list
    [["*"; "https://a.com"]], which is not the single wildcard, at a
    preflight whose [Origin] header is [*]: the answer is 200 and the
    allowed origin is the wildcard. *)
Lemma wildcard_origin_echoed :
  trustedOrigins trustWildcardAndA <> ["*"] /\
  Headers.get "origin" (req_headers (preflightFrom "*")) = Some "*" /\
  (let '(_, res', _) := Router.preflightHandler trustWildcardAndA (preflightFrom "*")
                          EResponse.new in
   status res' = 200%Z /\ allowOrigin res' = Some "*").
Proof.
  split; [discriminate|]. split; [reflexivity|]. split; reflexivity.
Qed.

(** Two cookies set around a generic [Set-Cookie] header: two [Set-Cookie]
    headers on the wire, the cookies, in order. *)
Lemma serializeResponse_set_cookie_witness :
  cookieCalls twoCookies <> [] /\
  NoDup (map cookieName (cookieCalls twoCookies)) /\
  setCookieHeaders (Router.serializeResponse (performAll twoCookies EResponse.new))
    = ["a=1"; "b=2"].
Proof.
  assert (Hne : cookieCalls twoCookies <> []) by discriminate.
  assert (Hnd : NoDup (map cookieName (cookieCalls twoCookies))).
  { simpl. constructor.
    - simpl. intros [H|[]]. discriminate H.
    - constructor; [intros [] | constructor]. }
  split; [exact Hne|]. split; [exact Hnd|].
  destruct (serializeResponse_set_cookie twoCookies Hne Hnd) as [Hv _].
  rewrite Hv. reflexivity.
Defined.

(** C7 as the specification words it fails with no cookie set (N = 0) and
    a [Set-Cookie] header set through the generic path: the header is not
    discarded, and the response carries one [Set-Cookie] header. *)
Lemma generic_set_cookie_kept :
  JS.Map_size (cookies (headers genericSetCookie)) = 0 /\
  setCookieHeaders (Router.serializeResponse genericSetCookie) = ["a=1"] /\
  length (setCookieHeaders (Router.serializeResponse genericSetCookie)) <>
  JS.Map_size (cookies (headers genericSetCookie)).
Proof.
  split; [reflexivity|]. split; [reflexivity|]. vm_compute. discriminate.
Qed.

(** [GET /x] on [use(sendOk); get("/x", sendOk)]: the middleware answers,
    and the route, whose check would match, is neither checked nor run. *)
Lemma ended_response_stops_dispatch_witness :
  c_log (Router.d_ctx (Router.handler answerThenGet (request "GET" "/x")))
    = [RequestChecked 0 Matched] ++ RequestRan 0 true :: [] /\
  ranEnded (RequestRan 0 true) = true /\
  fst (Router.routeMatcher Router.defaultConfig ["GET"] "/x"
         (ERequest_new (request "GET" "/x"))) = Matched /\
  (forall post,
     c_log (Router.d_ctx (Router.handler answerThenGet (request "GET" "/x")))
       = [RequestChecked 0 Matched] ++ RequestRan 0 true :: post ->
     post = []).
Proof.
  split; [reflexivity|]. split; [reflexivity|]. split; [reflexivity|].
  intros post H.
  exact (ended_response_stops_dispatch answerThenGet (request "GET" "/x")
           [RequestChecked 0 Matched] (RequestRan 0 true) post H eq_refl).
Defined.

(** Two failing dispatches on [use(passThrough); get("/x", sendOk)], a 404
    and a 405: two copies of the default handler in the error chain. *)
Lemma failing_dispatches_pile_up_witness :
  Forall (fun ev => chainFails middlewareThenGet ev = true)
         [request "GET" "/nope"; request "POST" "/x"] /\
  Router.errorHandlers
    (Router.dispatchAll middlewareThenGet [request "GET" "/nope"; request "POST" "/x"])
  = [Router.defaultErrorMiddleware middlewareThenGet;
     Router.defaultErrorMiddleware middlewareThenGet].
Proof.
  assert (H : Forall (fun ev => chainFails middlewareThenGet ev = true)
                     [request "GET" "/nope"; request "POST" "/x"]).
  { repeat constructor. }
  split; [exact H|].
  destruct (failing_dispatches_pile_up middlewareThenGet _ H) as [He _].
  rewrite He. reflexivity.
Defined.

End Examples.

(** ** Further properties of the router and of the response builders *)

Section MoreProperties.

Context `{P : Platform}.

Lemma filter_other_name (n n' : string) (h : Headers.t) :
  n <> n' ->
  filter (fun kv => fst kv =? n) (filter (fun kv => negb (fst kv =? n')) h) =
  filter (fun kv => fst kv =? n) h.
Proof.
  intro Hne. induction h as [|[k v] h IH]; simpl; [reflexivity|].
  destruct (k =? n') eqn:E'; simpl.
  - apply String.eqb_eq in E'. subst k.
    assert (E : (n' =? n) = false) by (apply String.eqb_neq; congruence).
    rewrite E. exact IH.
  - destruct (k =? n); [now rewrite IH | exact IH].
Qed.

Lemma filter_set_other (n n' value : string) (h : Headers.t) :
  n <> n' ->
  filter (fun kv => fst kv =? n) (Headers.set_norm n' value h) =
  filter (fun kv => fst kv =? n) h.
Proof.
  intro Hne. induction h as [|[k v] h IH]; simpl.
  - assert (E : (n' =? n) = false) by (apply String.eqb_neq; congruence).
    now rewrite E.
  - destruct (k =? n') eqn:E'; simpl.
    + apply String.eqb_eq in E'. subst k.
      assert (E : (n' =? n) = false) by (apply String.eqb_neq; congruence).
      rewrite E. now apply filter_other_name.
    + destruct (k =? n); [now rewrite IH | exact IH].
Qed.

(** Setting a header leaves the headers of every other name as they were. *)
Lemma values_set_other (name name' value : string) (h : Headers.t) :
  Headers.norm name <> Headers.norm name' ->
  Headers.values name (Headers.set name' value h) = Headers.values name h.
Proof.
  intro Hne. unfold Headers.values, Headers.set, Headers.named.
  now rewrite filter_set_other.
Qed.

Lemma get_set_other (name name' value : string) (h : Headers.t) :
  Headers.norm name <> Headers.norm name' ->
  Headers.get name (Headers.set name' value h) = Headers.get name h.
Proof.
  intro Hne. unfold Headers.get. now rewrite values_set_other.
Qed.

(** The two ways the preflight handler returns. *)
Lemma preflightHandler_cases (opts : AutoCorsPreflightOptions) (req : EReq)
    (res : ERes) :
  Router.preflightHandler opts req res = (req, EResponse.sendStatus 403 res, Normal) \/
  exists v,
    Router.preflightHandler opts req res =
    (req,
     EResponse.sendStatus 200
       (EResponse.setHeader "access-control-allow-origin" v
          (mirrorRequested req res)),
     Normal).
Proof.
  unfold Router.preflightHandler, mirrorRequested.
  destruct (length (trustedOrigins opts) =? 0)%nat; [now left|].
  match goal with
  | |- context [match ?o with Some _ => _ | None => _ end = _] =>
      destruct o as [v|]
  end; [|now left].
  destruct (negb (JS.truthy_string v)); [now left|].
  right. exists v. reflexivity.
Qed.

(** X1. With the single wildcard as the trusted list, every preflight is
    answered 200 with [Access-Control-Allow-Origin: *], whatever its
    [Origin] header is, and also without one. *)
Theorem preflightHandler_wildcard
    (opts : AutoCorsPreflightOptions) (req : EReq) (res : ERes) :
  trustedOrigins opts = ["*"] ->
  let '(req', res', k) := Router.preflightHandler opts req res in
  k = Normal /\ req' = req /\ status res' = 200%Z /\
  hasEnded res' = true /\ allowOrigin res' = Some "*".
Proof.
  intro H. unfold Router.preflightHandler. rewrite H. simpl.
  repeat split. unfold allowOrigin. simpl. apply get_set.
Qed.

(** X2. A preflight answered 200 carries the method and the headers the
    request asked for in [Access-Control-Allow-Methods] and
    [Access-Control-Allow-Headers]; a header the request does not name is
    left as the response had it. *)
Theorem preflightHandler_mirrors_request
    (opts : AutoCorsPreflightOptions) (req : EReq) (res : ERes) :
  let '(_, res', _) := Router.preflightHandler opts req res in
  status res' = 200%Z ->
  header "access-control-allow-methods" res' =
    match Headers.get "access-control-request-method" (req_headers req) with
    | Some m => Some m
    | None => header "access-control-allow-methods" res
    end /\
  header "access-control-allow-headers" res' =
    match Headers.get "access-control-request-headers" (req_headers req) with
    | Some h => Some h
    | None => header "access-control-allow-headers" res
    end.
Proof.
  destruct (preflightHandler_cases opts req res) as [H|[v H]]; rewrite H.
  - simpl. discriminate.
  - intros _. unfold header, mirrorRequested. simpl.
    rewrite !get_set_other by (vm_compute; discriminate).
    destruct (Headers.has "access-control-request-method" (req_headers req)) eqn:Hm;
      destruct (Headers.has "access-control-request-headers" (req_headers req)) eqn:Hh.
    all: repeat match goal with
           | Hx : Headers.has ?n ?h = true |- _ =>
               apply has_get in Hx; destruct (Headers.get n h) eqn:?;
               [|now elim Hx]; clear Hx
           | Hx : Headers.has ?n ?h = false |- _ =>
               assert (Headers.get n h = None)
                 by (destruct (Headers.get n h) eqn:G; [|reflexivity];
                     assert (Headers.has n h = true) by (apply has_get; congruence);
                     congruence);
               clear Hx
           end.
    all: repeat match goal with Hx : Headers.get _ _ = _ |- _ => rewrite Hx; clear Hx end.
    all: simpl; split;
      rewrite ?get_set, ?get_set_other by (vm_compute; discriminate);
      rewrite ?get_set; reflexivity.
Qed.

(** The preflight handler never throws, leaves the request alone and ends
    the response. *)
Lemma preflightHandler_ends (opts : AutoCorsPreflightOptions) (req : EReq)
    (res : ERes) :
  exists res', Router.preflightHandler opts req res = (req, res', Normal) /\
               hasEnded res' = true.
Proof.
  destruct (preflightHandler_cases opts req res) as [H|[v H]]; rewrite H;
    eexists; split; reflexivity.
Qed.

(** One turn of the request loop, by the result of the check. *)
Lemma requestLoop_matched (i : nat) (a : RequestHandler)
    (rest : list RequestHandler) (l : Router.Locals) (c : Ctx)
    (req1 req2 : EReq) (res2 : ERes) (k : Completion) :
  hasEnded (c_res c) = false ->
  check a (c_req c) = (Matched, req1) ->
  run a req1 (c_res c) = (req2, res2, k) ->
  Router.requestLoop i (a :: rest) l c =
  let l1 := {| Router.checkResult := Some Matched;
               Router.allowedMethods := Router.allowedMethods l |} in
  let c2 := logged (RequestRan i (hasEnded res2))
              (Router.withReqRes req2 res2
                 (logged (RequestChecked i Matched) (Router.withReq req1 c))) in
  match k with
  | Normal => Router.requestLoop (S i) rest l1 c2
  | Throw e => (l1, c2, Throw e)
  end.
Proof.
  intros He Hc Hr. cbn [Router.requestLoop]. rewrite He, Hc.
  cbn [logged Router.withReq c_res]. rewrite Hr. reflexivity.
Qed.

Lemma requestLoop_notFound (i : nat) (a : RequestHandler)
    (rest : list RequestHandler) (l : Router.Locals) (c : Ctx) (req1 : EReq) :
  hasEnded (c_res c) = false ->
  check a (c_req c) = (NotFound, req1) ->
  Router.requestLoop i (a :: rest) l c =
  Router.requestLoop (S i) rest
    {| Router.checkResult := Some NotFound;
       Router.allowedMethods := Router.allowedMethods l |}
    (logged (RequestChecked i NotFound) (Router.withReq req1 c)).
Proof.
  intros He Hc. cbn [Router.requestLoop]. rewrite He, Hc. reflexivity.
Qed.

Lemma requestLoop_mismatch (i : nat) (a : RequestHandler)
    (rest : list RequestHandler) (l : Router.Locals) (c : Ctx) (req1 : EReq)
    (ms : list string) :
  hasEnded (c_res c) = false ->
  check a (c_req c) = (MethodMismatch ms, req1) ->
  Router.requestLoop i (a :: rest) l c =
  Router.requestLoop (S i) rest
    {| Router.checkResult := Some (MethodMismatch ms);
       Router.allowedMethods :=
         if JS.truthy_length (length ms)
         then Router.allowedMethods l ++ [ms] else Router.allowedMethods l |}
    (logged (RequestChecked i (MethodMismatch ms)) (Router.withReq req1 c)).
Proof.
  intros He Hc. cbn [Router.requestLoop]. rewrite He, Hc. reflexivity.
Qed.

Lemma handler_normal (r : Router.t) (ev : FetchEvent) (c1 : Ctx) :
  Router.runRequestHandlers r (initialCtx ev) = (c1, Normal) ->
  Router.handler r ev =
  {| Router.d_router := r;
     Router.d_settled := Router.settle (c_res c1);
     Router.d_ctx := c1 |}.
Proof. intro H. unfold Router.handler. now rewrite H. Qed.

Lemma preflight_check (cfg : EConfig) (req : EReq) :
  Router.routeMatcher cfg ["OPTIONS"] "*" req =
  (if "OPTIONS" =? method req then Matched else MethodMismatch ["OPTIONS"], req).
Proof.
  unfold Router.routeMatcher. cbn [existsb].
  change ("*" =? "*") with true. change ("OPTIONS" =? "*") with false.
  cbn [orb]. now rewrite orb_false_r.
Qed.

Lemma constructor_preflight (cfg : EConfig) (o : AutoCorsPreflightOptions) :
  autoCorsPreflight cfg = Some o ->
  Router.constructor cfg =
  {| Router.requestHandlers :=
       [{| check := Router.routeMatcher cfg ["OPTIONS"] "*";
           run := Router.preflightHandler o |}];
     Router.errorHandlers := [];
     Router.config := cfg |}.
Proof. intro H. unfold Router.constructor. rewrite H. reflexivity. Qed.

(** X5. On a router constructed with [autoCorsPreflight] and nothing else
    registered, a request of any other method fails the request chain with
    [ErrorMethodNotAllowed [["OPTIONS"]]]: it is answered 405 with
    [Allow: OPTIONS] when auto405 is on, and 404 when it is off. *)
Theorem constructor_preflight_only
    (cfg : EConfig) (o : AutoCorsPreflightOptions) (ev : FetchEvent) :
  autoCorsPreflight cfg = Some o ->
  ev_method ev <> "OPTIONS" ->
  snd (Router.runRequestHandlers (Router.constructor cfg) (initialCtx ev)) =
    Throw (ErrorMethodNotAllowed [["OPTIONS"]]) /\
  exists response,
    Router.d_settled (Router.handler (Router.constructor cfg) ev) =
      Router.Resolved response /\
    r_status response = (if auto405 cfg then 405 else 404)%Z /\
    (auto405 cfg = true ->
     header "Allow" (c_res (Router.d_ctx (Router.handler (Router.constructor cfg) ev)))
       = Some "OPTIONS").
Proof.
  intros Ho Hm. rewrite (constructor_preflight cfg o Ho).
  set (r := {| Router.requestHandlers := _; Router.errorHandlers := [];
               Router.config := cfg |}).
  assert (Hrun : exists c1,
            Router.runRequestHandlers r (initialCtx ev) =
              (c1, Throw (ErrorMethodNotAllowed [["OPTIONS"]])) /\
            hasEnded (c_res c1) = false).
  { unfold Router.runRequestHandlers, r. cbn [Router.requestHandlers].
    erewrite requestLoop_mismatch with (ms := ["OPTIONS"]); [| reflexivity |].
    - eexists. split; reflexivity.
    - cbn [check initialCtx c_req]. rewrite preflight_check.
      cbn [ERequest_new method].
      apply String.eqb_neq in Hm. rewrite String.eqb_sym in Hm.
      now rewrite Hm. }
  destruct Hrun as [c1 [Hrun Hend]].
  split; [now rewrite Hrun|].
  destruct (defaultErrorHandler_ends (auto405 (Router.config r))
              (ErrorMethodNotAllowed [["OPTIONS"]]) (c_req c1) (c_res c1))
    as [res' [Hd [Hres Hst]]].
  destruct (handler_default_only r ev c1 _ res' Hrun Hend (Forall_nil _) Hd Hres)
    as [Hset Hctx].
  pose proof Hd as Hmth. apply defaultErrorHandler_method in Hmth.
  destruct Hmth as [H405 Hallow].
  exists (Router.serializeResponse res'). split; [exact Hset|]. split.
  - rewrite serializeResponse_status_set by exact Hst. exact H405.
  - intro Ha. unfold header. rewrite Hctx. now apply Hallow.
Qed.





(** X6. A matcher whose methods hold the wildcard, as the ones [use] with a
    path and [all] build, never returns a method mismatch: such a handler
    adds nothing to the [Allow] list of a 405. *)
Theorem wildcard_methods_never_mismatch
    (cfg : EConfig) (methods : list string) (pattern : string) (req : EReq) :
  In "*" methods ->
  fst (Router.routeMatcher cfg methods pattern req) = Matched \/
  fst (Router.routeMatcher cfg methods pattern req) = NotFound.
Proof.
  intro Hin.
  assert (Ha : existsb (fun m => (m =? "*") || (m =? method req))%bool methods = true).
  { apply existsb_exists. exists "*". split; [exact Hin | reflexivity]. }
  unfold Router.routeMatcher. rewrite Ha.
  destruct ((pattern =? "*") || (pattern =? "(.*)"))%bool; [now left|].
  destruct (path_to_regexp_match pattern (pathname req)) as [m|]; [|now right].
  destruct (JS.truthy_string (path m)); [now left | now right].
Qed.


(** X8. A check of [routeMatcher] writes nothing to the request but its
    [params], and writes them only when the pattern is not universal, the
    path matched and [extractRequestParameters] is on; it then writes the
    parameters of the match also when the method is not allowed. *)
Theorem routeMatcher_request
    (cfg : EConfig) (methods : list string) (pattern : string) (req : EReq) :
  let '(r, req') := Router.routeMatcher cfg methods pattern req in
  method req' = method req /\ pathname req' = pathname req /\
  req_headers req' = req_headers req /\
  (r = NotFound \/ isUniversal pattern = true \/
   extractRequestParameters cfg = false -> req' = req) /\
  (r <> NotFound -> isUniversal pattern = false ->
   extractRequestParameters cfg = true ->
   exists m, path_to_regexp_match pattern (pathname req) = Some m /\
             params req' = match_params m).
Proof.
  unfold Router.routeMatcher, isUniversal.
  destruct ((pattern =? "*") || (pattern =? "(.*)"))%bool eqn:Hu.
  { repeat split; discriminate. }
  destruct (path_to_regexp_match pattern (pathname req)) as [m|].
  2:{ repeat split. intro H. now elim H. }
  destruct (JS.truthy_string (path m)).
  2:{ repeat split. intro H. now elim H. }
  destruct (extractRequestParameters cfg) eqn:He; simpl.
  - repeat split.
    + intros [H|[H|H]]; try discriminate.
      destruct (existsb _ methods); discriminate.
    + intros _ _ _. exists m. split; reflexivity.
  - repeat split. discriminate.
Qed.

Lemma handler_throw (r : Router.t) (ev : FetchEvent) (c1 : Ctx) (err : JSError) :
  Router.runRequestHandlers r (initialCtx ev) = (c1, Throw err) ->
  Router.handler r ev =
  let r' := Router.use None
              (ErrorCallback (Router.defaultErrorHandler (auto405 (Router.config r))))
              r in
  match Router.runErrorHandlers r' err c1 with
  | (c2, Normal) =>
      {| Router.d_router := r';
         Router.d_settled := Router.settle (c_res c2);
         Router.d_ctx := c2 |}
  | (c2, Throw e) =>
      {| Router.d_router := r'; Router.d_settled := Router.Rejected e;
         Router.d_ctx := c2 |}
  end.
Proof. intro H. unfold Router.handler. now rewrite H. Qed.

(** X11. A router without request handlers answers every request 204 with
    no body, not 404: the request chain does not fail, no error handler
    runs and the router is left as it was. *)
Theorem handler_empty_router (r : Router.t) (ev : FetchEvent) :
  Router.requestHandlers r = [] ->
  Router.handler r ev =
  {| Router.d_router := r;
     Router.d_settled :=
       Router.Resolved {| r_status := 204; r_headers := Response_init_headers [];
                          r_body := None |};
     Router.d_ctx := initialCtx ev |}.
Proof.
  intro H. rewrite (handler_normal r ev (initialCtx ev)); [reflexivity|].
  unfold Router.runRequestHandlers. rewrite H. reflexivity.
Qed.

(** X14. An error a request handler throws before the response is ended
    is, with nothing but the default handler in the error chain, answered
    500 with the JSON body [{ error: message }]. *)
Theorem handler_thrown_error_is_500
    (r : Router.t) (ev : FetchEvent) (c1 : Ctx) (message : string) :
  Router.runRequestHandlers r (initialCtx ev) = (c1, Throw (OtherError message)) ->
  hasEnded (c_res c1) = false ->
  Forall (eq (Router.defaultErrorMiddleware r)) (Router.errorHandlers r) ->
  exists response,
    Router.d_settled (Router.handler r ev) = Router.Resolved response /\
    r_status response = 500%Z /\
    r_body response = Some (BodyText (JSON_stringify (JObject [("error", message)]))).
Proof.
  intros Hrun Hend Hall.
  destruct (defaultErrorHandler_ends (auto405 (Router.config r)) (OtherError message)
              (c_req c1) (c_res c1)) as [res' [Hd [Hres Hst]]].
  destruct (handler_default_only r ev c1 _ res' Hrun Hend Hall Hd Hres)
    as [Hset _].
  exists (Router.serializeResponse res'). split; [exact Hset|].
  simpl in Hd. inversion Hd; subst res'. split.
  - now rewrite serializeResponse_status_set.
  - unfold Router.serializeResponse. simpl.
    destruct (JS.truthy_length _); reflexivity.
Qed.

Lemma requestLoop_all_notFound (req0 : EReq) (hs : list RequestHandler) :
  Forall (fun a => check a req0 = (NotFound, req0)) hs ->
  forall (i : nat) (l : Router.Locals) (c : Ctx),
  c_req c = req0 -> hasEnded (c_res c) = false ->
  exists l' c',
    Router.requestLoop i hs l c = (l', c', Normal) /\
    Router.allowedMethods l' = Router.allowedMethods l /\
    Router.checkResult l' =
      match hs with [] => Router.checkResult l | _ => Some NotFound end /\
    c_res c' = c_res c /\ c_req c' = req0.
Proof.
  induction 1 as [|a rest Ha Hrest IH]; intros i l c Hreq Hend.
  - exists l, c. repeat split. exact Hreq.
  - rewrite (requestLoop_notFound i a rest l c req0 Hend)
      by (rewrite Hreq; exact Ha).
    destruct (IH (S i)
                {| Router.checkResult := Some NotFound;
                   Router.allowedMethods := Router.allowedMethods l |}
                (logged (RequestChecked i NotFound) (Router.withReq req0 c))
                eq_refl Hend)
      as [l' [c' [Hl [Ha' [Hc [Hres Hrq]]]]]].
    exists l', c'. split; [exact Hl|]. split; [exact Ha'|]. split.
    + rewrite Hc. now destruct rest.
    + split; assumption.
Qed.

Lemma values_delete_other (name name' : string) (h : Headers.t) :
  Headers.norm name <> Headers.norm name' ->
  Headers.values name (Headers.delete name' h) = Headers.values name h.
Proof.
  intro Hne. unfold Headers.values, Headers.delete, Headers.named.
  now rewrite filter_other_name.
Qed.

Lemma values_append_other (name name' value : string) (h : Headers.t) :
  Headers.norm name <> Headers.norm name' ->
  Headers.values name (Headers.append name' value h) = Headers.values name h.
Proof.
  intro Hne. unfold Headers.values, Headers.append, Headers.named.
  rewrite filter_app, map_app. simpl.
  assert (E : (Headers.norm name' =? Headers.norm name) = false)
    by (apply String.eqb_neq; congruence).
  rewrite E. simpl. apply app_nil_r.
Qed.

Lemma values_append_all_other (name name' : string) (vs : list string)
    (h : Headers.t) :
  Headers.norm name <> Headers.norm name' ->
  Headers.values name
    (fold_left (fun acc c => Headers.append name' c acc) vs h) =
  Headers.values name h.
Proof.
  intro Hne. revert h. induction vs as [|v vs IH]; intro h; simpl;
    [reflexivity|].
  rewrite IH. now apply values_append_other.
Qed.

(** X16. The [Set-Cookie] workaround of [serializeResponse] touches no
    other header and not the body: the values of every header of another
    name reach the wire as the [Response] constructor took them from the
    builder, cookies or no. *)
Theorem serializeResponse_other_headers (res : ERes) (name : string) :
  Headers.norm name <> "set-cookie" ->
  Headers.values name (r_headers (Router.serializeResponse res)) =
    Headers.values name (Response_init_headers (entries (headers res))) /\
  r_body (Router.serializeResponse res) = body res.
Proof.
  intro Hne. unfold Router.serializeResponse.
  destruct (JS.truthy_length (JS.Map_size (cookies (headers res)))); simpl.
  - split; [|reflexivity].
    rewrite values_append_all_other by exact Hne.
    now apply values_delete_other.
  - split; reflexivity.
Qed.

Lemma dispatchAll_failures (r0 : Router.t) (events : list FetchEvent) :
  forall r : Router.t,
  Router.requestHandlers r = Router.requestHandlers r0 ->
  Router.config r = Router.config r0 ->
  Router.errorHandlers (Router.dispatchAll r events) =
    Router.errorHandlers r ++
    repeat (Router.defaultErrorMiddleware r0) (failures r0 events) /\
  Router.requestHandlers (Router.dispatchAll r events) = Router.requestHandlers r0 /\
  Router.config (Router.dispatchAll r events) = Router.config r0.
Proof.
  unfold failures, Router.dispatchAll.
  induction events as [|ev events IH]; intros r Hh Hc.
  - simpl. now rewrite app_nil_r.
  - cbn [fold_left filter].
    rewrite handler_router, (chainFails_requestHandlers r0 r ev Hh).
    destruct (chainFails r0 ev); cbn [length repeat].
    + set (r1 := Router.use None
                   (ErrorCallback (Router.defaultErrorHandler
                                     (auto405 (Router.config r)))) r).
      destruct (IH r1) as [He [Hr Hcf]]; try assumption.
      rewrite He, Hr, Hcf. unfold r1. cbn [Router.use Router.errorHandlers].
      rewrite <- app_assoc. cbn [app].
      unfold Router.defaultErrorMiddleware. rewrite Hc. repeat split.
    + exact (IH r Hh Hc).
Qed.

(** X17. Over any sequence of dispatches on one router, the error chain
    grows by one copy of the default handler for each dispatch whose
    request chain failed and by nothing else; the request handlers and the
    configuration stay as they were. A sequence without failures leaves
    the router unchanged in all three. *)
Theorem dispatches_count_failures (r : Router.t) (events : list FetchEvent) :
  Router.errorHandlers (Router.dispatchAll r events) =
    Router.errorHandlers r ++
    repeat (Router.defaultErrorMiddleware r) (failures r events) /\
  Router.requestHandlers (Router.dispatchAll r events) = Router.requestHandlers r /\
  Router.config (Router.dispatchAll r events) = Router.config r.
Proof. now apply dispatchAll_failures. Qed.

Lemma Map_get_set_same (k v : string) (m : JS.Map) :
  Map_get k (JS.Map_set k v m) = Some v.
Proof.
  induction m as [|[k' v'] m IH]; simpl.
  - now rewrite String.eqb_refl.
  - destruct (k' =? k) eqn:E; simpl; rewrite E; [reflexivity | exact IH].
Qed.

Lemma Map_get_set_other (k k' v : string) (m : JS.Map) :
  k' <> k -> Map_get k' (JS.Map_set k v m) = Map_get k' m.
Proof.
  intro Hne. induction m as [|[k0 v0] m IH]; simpl.
  - assert (E : (k =? k') = false) by (apply String.eqb_neq; congruence).
    now rewrite E.
  - destruct (k0 =? k) eqn:E; simpl.
    + apply String.eqb_eq in E. subst k0.
      assert (E' : (k =? k') = false) by (apply String.eqb_neq; congruence).
      now rewrite E'.
    + destruct (k0 =? k'); [reflexivity | exact IH].
Qed.

Lemma Map_set_present (k v : string) (m : JS.Map) :
  In k (map fst m) -> map fst (JS.Map_set k v m) = map fst m.
Proof.
  induction m as [|[k' v'] m IH]; simpl; intro H; [contradiction|].
  destruct (k' =? k) eqn:E; simpl; [reflexivity|].
  destruct H as [H|H]; [apply String.eqb_neq in E; contradiction|].
  now rewrite IH.
Qed.


Lemma Map_set_NoDup (k v : string) (m : JS.Map) :
  NoDup (map fst m) -> NoDup (map fst (JS.Map_set k v m)).
Proof.
  intro H. destruct (in_dec string_dec k (map fst m)) as [Hin|Hin].
  - now rewrite Map_set_present.
  - rewrite Map_set_fresh by exact Hin. rewrite map_app. simpl.
    apply NoDup_app; [exact H | repeat constructor; intros [] |].
    intros x Hx [Hk|[]]. subst. contradiction.
Qed.

(** X19. [cookie] keeps one entry per cookie name. After it, the entry of
    the name is the serialization of the call, the entries of the other
    names are as before, and headers, body and status are not touched. A
    name set before keeps its place in the order and only changes value;
    a new name goes last. *)
Theorem FPResponse_cookie_tracks
    (key value : string) (options : CookieOptions) (fp : FPResponse.t) :
  let fp' := FPResponse.cookie key value options fp in
  Map_get key (FPResponse._cookies fp') = Some (cookie_serialize key value options) /\
  (forall k', k' <> key ->
     Map_get k' (FPResponse._cookies fp') = Map_get k' (FPResponse._cookies fp)) /\
  (NoDup (map fst (FPResponse._cookies fp)) ->
   NoDup (map fst (FPResponse._cookies fp'))) /\
  (In key (map fst (FPResponse._cookies fp)) ->
   map fst (FPResponse._cookies fp') = map fst (FPResponse._cookies fp)) /\
  (~ In key (map fst (FPResponse._cookies fp)) ->
   FPResponse._cookies fp' =
   FPResponse._cookies fp ++ [(key, cookie_serialize key value options)]) /\
  FPResponse._headers fp' = FPResponse._headers fp /\
  FPResponse._body fp' = FPResponse._body fp /\
  FPResponse.status fp' = FPResponse.status fp.
Proof.
  cbn zeta. unfold FPResponse.cookie. cbn [FPResponse._cookies
    FPResponse._headers FPResponse._body FPResponse.status].
  split; [apply Map_get_set_same|].
  split; [intros k' Hk; now apply Map_get_set_other|].
  split; [apply Map_set_NoDup|].
  split; [apply Map_set_present|].
  split; [apply Map_set_fresh|].
  repeat split.
Qed.




(** X21. [setDefaults] never leaves the status unset and is idempotent. A
    status that was set is kept with everything else; an unset one becomes
    200 when there is a body, the empty string too, and 404 with the body
    [Not Found] when there is none. Headers and cookies are not touched. *)
Theorem FPResponse_setDefaults_settles (fp : FPResponse.t) :
  let fp' := FPResponse.setDefaults fp in
  FPResponse.status fp' <> 0%Z /\
  FPResponse.setDefaults fp' = fp' /\
  (FPResponse.status fp <> 0%Z -> fp' = fp) /\
  (FPResponse.status fp = 0%Z ->
   FPResponse.status fp' = match FPResponse._body fp with
                           | None => 404%Z
                           | Some _ => 200%Z
                           end /\
   FPResponse._body fp' = match FPResponse._body fp with
                          | None => Some (BodyText "Not Found")
                          | Some b => Some b
                          end) /\
  FPResponse._headers fp' = FPResponse._headers fp /\
  FPResponse._cookies fp' = FPResponse._cookies fp.
Proof.
  cbn zeta. unfold FPResponse.setDefaults.
  destruct (FPResponse.status fp =? 0)%Z eqn:E.
  - apply Z.eqb_eq in E.
    destruct (FPResponse._body fp) as [b|] eqn:Eb; simpl;
      repeat split; try discriminate; try assumption; try (intro H; now elim H).
  - rewrite E. apply Z.eqb_neq in E.
    split; [exact E|]. split; [reflexivity|]. split; [reflexivity|].
    split; [intro H; now elim E | split; reflexivity].
Qed.

Lemma useHeaders_fields (hs : Headers.t) :
  forall fp : FPResponse.t,
  FPResponse._body (FPResponse.useHeaders hs fp) = FPResponse._body fp /\
  FPResponse.status (FPResponse.useHeaders hs fp) = FPResponse.status fp /\
  FPResponse._cookies (FPResponse.useHeaders hs fp) = FPResponse._cookies fp.
Proof.
  unfold FPResponse.useHeaders.
  induction hs as [|[k v] hs IH]; intro fp; simpl; [auto|].
  destruct (IH (FPResponse.setHeader k v fp)) as [Hb [Hs Hc]].
  rewrite Hb, Hs, Hc. auto.
Qed.

Lemma useHeaders_other (name : string) (hs : Headers.t) :
  forall fp : FPResponse.t,
  ~ In (Headers.norm name) (map (fun kv => Headers.norm (fst kv)) hs) ->
  Headers.values name (FPResponse._headers (FPResponse.useHeaders hs fp)) =
  Headers.values name (FPResponse._headers fp).
Proof.
  unfold FPResponse.useHeaders.
  induction hs as [|[k v] hs IH]; intros fp Hn; simpl; [reflexivity|].
  simpl in Hn. rewrite IH by tauto. simpl.
  apply values_set_other. intro E. apply Hn. left. now symmetry.
Qed.

Lemma useHeaders_named (hs : Headers.t) :
  NoDup (map (fun kv => Headers.norm (fst kv)) hs) ->
  forall (fp : FPResponse.t) (k v : string),
  In (k, v) hs ->
  Headers.values k (FPResponse._headers (FPResponse.useHeaders hs fp)) = [v].
Proof.
  induction hs as [|[k0 v0] hs IH]; intros Hnd fp k v Hin; [contradiction|].
  simpl in Hnd. inversion Hnd as [|? ? Hnotin Hnd']; subst.
  destruct Hin as [Hin|Hin].
  - inversion Hin; subst.
    change (FPResponse.useHeaders ((k, v) :: hs) fp)
      with (FPResponse.useHeaders hs (FPResponse.setHeader k v fp)).
    rewrite useHeaders_other by exact Hnotin. simpl. apply values_set.
  - change (FPResponse.useHeaders ((k0, v0) :: hs) fp)
      with (FPResponse.useHeaders hs (FPResponse.setHeader k0 v0 fp)).
    now apply IH.
Qed.

(** X24. [send] of a whole [Response], whose headers name each header
    once, adopts its body and its status and sets each of its headers,
    replacing what the builder held under that name; the headers of other
    names and the cookies are kept. [send] of a body changes the body
    alone. *)
Theorem FPResponse_send_response
    (b : option BodyInit) (hs : Headers.t) (st : Z) (fp : FPResponse.t) :
  NoDup (map (fun kv => Headers.norm (fst kv)) hs) ->
  let fp' := FPResponse.send (FPResponse.SendResponse b hs st) fp in
  FPResponse._body fp' = b /\ FPResponse.status fp' = st /\
  FPResponse._cookies fp' = FPResponse._cookies fp /\
  (forall k v, In (k, v) hs -> Headers.values k (FPResponse._headers fp') = [v]) /\
  (forall name,
     ~ In (Headers.norm name) (map (fun kv => Headers.norm (fst kv)) hs) ->
     Headers.values name (FPResponse._headers fp') =
     Headers.values name (FPResponse._headers fp)) /\
  (forall b', FPResponse.send (FPResponse.SendBody b') fp = FPResponse.withBody b' fp).
Proof.
  intro Hnd. cbn zeta. unfold FPResponse.send.
  destruct (useHeaders_fields hs (FPResponse.withBody b fp)) as [Hb [Hs Hc]].
  cbn [FPResponse.withStatus FPResponse._body FPResponse.status
       FPResponse._cookies FPResponse._headers].
  split; [exact Hb|]. split; [reflexivity|]. split; [exact Hc|].
  split; [|split].
  - intros k v Hin. now apply useHeaders_named.
  - intros name Hn. now rewrite useHeaders_other.
  - reflexivity.
Qed.

Lemma preflightHandler_status (opts : AutoCorsPreflightOptions) (req : EReq)
    (res : ERes) :
  exists res', Router.preflightHandler opts req res = (req, res', Normal) /\
               hasEnded res' = true /\
               (status res' = 200%Z \/ status res' = 403%Z).
Proof.
  destruct (preflightHandler_cases opts req res) as [H|[v H]]; rewrite H;
    eexists; (split; [reflexivity|]); split; try reflexivity;
    [now right | now left].
Qed.

(** X4. On a router constructed with [autoCorsPreflight], whatever was
    registered after the construction, a dispatch of an [OPTIONS] request,
    to any path, is answered by the preflight handler: it is the first
    handler checked, it matches, its callback ends the response, and no
    handler registered later is checked or run. The promise resolves with
    the response the preflight handler built and the router is left as it
    was. *)
Theorem preflight_answers_options
    (cfg : EConfig) (o : AutoCorsPreflightOptions) (r : Router.t)
    (rest : list RequestHandler) (ev : FetchEvent) :
  autoCorsPreflight cfg = Some o ->
  Router.requestHandlers r =
    Router.requestHandlers (Router.constructor cfg) ++ rest ->
  ev_method ev = "OPTIONS" ->
  let '(_, res', _) := Router.preflightHandler o (ERequest_new ev) EResponse.new in
  Router.handler r ev =
  {| Router.d_router := r;
     Router.d_settled := Router.Resolved (Router.serializeResponse res');
     Router.d_ctx := {| c_req := ERequest_new ev; c_res := res';
                        c_log := [RequestChecked 0 Matched; RequestRan 0 true] |} |}.
Proof.
  intros Ho Hh Hm. rewrite (constructor_preflight cfg o Ho) in Hh.
  cbn [Router.requestHandlers app] in Hh.
  destruct (preflightHandler_status o (ERequest_new ev) EResponse.new)
    as [res' [Hp [Hend Hst]]].
  rewrite Hp.
  assert (Hrun : Router.runRequestHandlers r (initialCtx ev) =
                 ({| c_req := ERequest_new ev; c_res := res';
                     c_log := [RequestChecked 0 Matched; RequestRan 0 true] |},
                  Normal)).
  { unfold Router.runRequestHandlers. rewrite Hh.
    erewrite requestLoop_matched; [| reflexivity | | exact Hp].
    - cbn zeta. rewrite requestLoop_ended by exact Hend.
      rewrite Hend. reflexivity.
    - cbn [check initialCtx c_req]. rewrite preflight_check.
      cbn [ERequest_new method]. now rewrite Hm, String.eqb_refl. }
  rewrite (handler_normal r ev _ Hrun). cbn [c_res].
  rewrite settle_status; [reflexivity | |];
    destruct Hst as [H|H]; rewrite H; try lia; reflexivity.
Qed.

(** X12. Once the request chain has left the response ended, the error
    chain cannot change it: however the request chain completed, also with
    a method mismatch thrown after a later handler answered, and whatever
    error handlers are registered, no error handler is checked or run and
    the dispatch ends in the serialization of the response as the request
    chain left it. The promise resolves with it unless [new Response]
    throws. *)
Theorem ended_response_is_final
    (r : Router.t) (ev : FetchEvent) (c1 : Ctx) (k : Completion) :
  Router.runRequestHandlers r (initialCtx ev) = (c1, k) ->
  hasEnded (c_res c1) = true ->
  Router.d_ctx (Router.handler r ev) = c1 /\
  Router.d_settled (Router.handler r ev) = Router.settle (c_res c1) /\
  (Response_init_error (body (c_res c1))
     (r_status (Router.serializeResponse (c_res c1))) = None ->
   Router.d_settled (Router.handler r ev) =
   Router.Resolved (Router.serializeResponse (c_res c1))).
Proof.
  intros Hrun Hend.
  assert (H : Router.d_ctx (Router.handler r ev) = c1 /\
              Router.d_settled (Router.handler r ev) = Router.settle (c_res c1)).
  { destruct k as [|err].
    - rewrite (handler_normal r ev c1 Hrun). split; reflexivity.
    - rewrite (handler_throw r ev c1 err Hrun). cbn zeta.
      unfold Router.runErrorHandlers.
      rewrite errorLoop_ended by exact Hend. split; reflexivity. }
  destruct H as [Hc Hs]. split; [exact Hc|]. split; [exact Hs|].
  intro Hok. rewrite Hs. unfold Router.settle, Router.serializeResponse_checked.
  now rewrite Hok.
Qed.

(** X15. When the check of every request handler answers [NotFound] to the
    request, and there is at least one, the request chain fails with
    [ErrorNotFound]; with nothing but the default handler in the error
    chain the dispatch answers 404, with auto405 on or off. *)
Theorem handler_no_route_is_404 (r : Router.t) (ev : FetchEvent) :
  Router.requestHandlers r <> [] ->
  Forall (fun a => check a (ERequest_new ev) = (NotFound, ERequest_new ev))
         (Router.requestHandlers r) ->
  Forall (eq (Router.defaultErrorMiddleware r)) (Router.errorHandlers r) ->
  snd (Router.runRequestHandlers r (initialCtx ev)) = Throw ErrorNotFound /\
  exists response,
    Router.d_settled (Router.handler r ev) = Router.Resolved response /\
    r_status response = 404%Z.
Proof.
  intros Hne Hnf Hall.
  destruct (requestLoop_all_notFound _ _ Hnf 0 Router.noLocals (initialCtx ev)
              eq_refl eq_refl) as [l' [c' [Hl [Ha [Hc [Hres Hrq]]]]]].
  assert (Hrun : Router.runRequestHandlers r (initialCtx ev) = (c', Throw ErrorNotFound)).
  { unfold Router.runRequestHandlers. rewrite Hl.
    rewrite afterLoop_no_mismatch by exact Ha. rewrite Hc.
    now destruct (Router.requestHandlers r). }
  split; [now rewrite Hrun|].
  assert (Hend : hasEnded (c_res c') = false) by now rewrite Hres.
  destruct (defaultErrorHandler_ends (auto405 (Router.config r)) ErrorNotFound
              (c_req c') (c_res c')) as [res' [Hd [Hended Hst]]].
  destruct (handler_default_only r ev c' _ res' Hrun Hend Hall Hd Hended)
    as [Hset _].
  exists (Router.serializeResponse res'). split; [exact Hset|].
  simpl in Hd. inversion Hd; subst res'.
  now rewrite serializeResponse_status_set.
Qed.

Lemma requestLoop_app (hs1 hs2 : list RequestHandler) :
  forall (i : nat) (l : Router.Locals) (c : Ctx),
  Router.requestLoop i (hs1 ++ hs2) l c =
  match Router.requestLoop i hs1 l c with
  | (l1, c1, Normal) => Router.requestLoop (i + length hs1) hs2 l1 c1
  | (l1, c1, Throw e) => (l1, c1, Throw e)
  end.
Proof.
  induction hs1 as [|a hs1 IH]; intros i l c.
  - cbn [app Router.requestLoop length]. now rewrite Nat.add_0_r.
  - cbn [app Router.requestLoop length].
    destruct (hasEnded (c_res c)) eqn:Hend.
    + now rewrite requestLoop_ended.
    + destruct (check a (c_req c)) as [r req1].
      replace (i + S (length hs1)) with (S i + length hs1) by lia.
      destruct r as [| |ms]; try apply IH.
      destruct (run a req1 (c_res (logged (RequestChecked i Matched)
                                     (Router.withReq req1 c))))
        as [[req2 res2] k].
      destruct k; [apply IH | reflexivity].
Qed.

(** X18. Handlers are visited in the order of their registration: the
    request loop of a router on which [route], or [use] with a request
    callback, has just registered a handler is the request loop of the
    router before, followed, when no callback threw, by the visit of the
    new handler, from the locals, the request and the response the others
    left and at the position after theirs. [use] with an error callback
    leaves the request handlers as they were. *)
Theorem registered_last_is_visited_last
    (r : Router.t) (methods : list string) (pattern : string)
    (callback : RequestHandlerCallback) (path : option string)
    (f : ErrorMiddlewareCallback) (l : Router.Locals) (c : Ctx) :
  let before := Router.requestLoop 0 (Router.requestHandlers r) l c in
  let visit a :=
    match before with
    | (l1, c1, Normal) =>
        Router.requestLoop (length (Router.requestHandlers r)) [a] l1 c1
    | (l1, c1, Throw e) => (l1, c1, Throw e)
    end in
  Router.requestLoop 0
    (Router.requestHandlers (Router.route methods pattern callback r)) l c =
    visit {| check := Router.routeMatcher (Router.config r)
                        (map JS.toUpperCase methods) pattern;
             run := callback |} /\
  Router.requestLoop 0
    (Router.requestHandlers (Router.use path (RequestCallback callback) r)) l c =
    visit {| check := match path with
                      | None => fun req => (Matched, req)
                      | Some p => Router.routeMatcher (Router.config r) ["*"] p
                      end;
             run := callback |} /\
  Router.requestHandlers (Router.use path (ErrorCallback f) r) =
    Router.requestHandlers r.
Proof.
  cbn zeta. split; [|split].
  - unfold Router.route. cbn [Router.requestHandlers].
    now rewrite requestLoop_app.
  - unfold Router.use. cbn [Router.requestHandlers].
    now rewrite requestLoop_app.
  - reflexivity.
Qed.

(** X22. For a URL that the [Headers] object stores as it is given,
    [redirect] answers 301 with the [Location] header set to exactly the
    URL, whatever location was set or appended before, and a body naming
    it; the cookies are kept and [setDefaults] then changes nothing. *)
Theorem FPResponse_redirect (url : string) (fp : FPResponse.t) :
  storedAsGiven url = true ->
  let fp' := FPResponse.redirect url fp in
  FPResponse.status fp' = 301%Z /\
  Headers.values "Location" (FPResponse._headers fp') = [url] /\
  FPResponse._body fp' = Some (BodyText ("Redirecting you to: " ++ url)%string) /\
  FPResponse._cookies fp' = FPResponse._cookies fp /\
  FPResponse.setDefaults fp' = fp'.
Proof.
  intros _. cbn zeta. unfold FPResponse.redirect, FPResponse.writeHead. simpl.
  repeat split. apply values_set.
Qed.

(** X23. [json] sets the content type to [application/json], replacing any
    content type set or appended before, and leaves the status alone. For
    a datum that [JSON.stringify] serializes, the body is the serialization
    and, on a builder without a status, [setDefaults] then gives 200. For
    [undefined] the body is left without a value and [setDefaults] gives
    404. *)
Theorem FPResponse_json (data : option JValue) (fp : FPResponse.t) :
  let fp' := FPResponse.json data fp in
  Headers.values "Content-Type" (FPResponse._headers fp') = ["application/json"] /\
  FPResponse._body fp' =
    match data with
    | Some d => Some (BodyText (JSON_stringify d))
    | None => None
    end /\
  FPResponse.status fp' = FPResponse.status fp /\
  (FPResponse.status fp = 0%Z ->
   FPResponse.status (FPResponse.setDefaults fp') =
   match data with Some _ => 200%Z | None => 404%Z end).
Proof.
  cbn zeta. unfold FPResponse.json. simpl.
  split; [apply values_set|]. repeat split.
  intro H. unfold FPResponse.setDefaults. simpl. rewrite H.
  now destruct data.
Qed.


End MoreProperties.

(** ** The further properties at work *)

Section MoreExamples.

#[local] Existing Instance demoPlatform.

(** The wildcard list answers a preflight without an [Origin] header. *)
Lemma preflightHandler_wildcard_witness :
  trustedOrigins trustAll = ["*"] /\
  (let '(_, res', _) := Router.preflightHandler trustAll
                          (ERequest_new (request "OPTIONS" "/")) EResponse.new in
   status res' = 200%Z /\ allowOrigin res' = Some "*").
Proof.
  assert (H : trustedOrigins trustAll = ["*"]) by reflexivity.
  split; [exact H|].
  pose proof (preflightHandler_wildcard trustAll
                (ERequest_new (request "OPTIONS" "/")) EResponse.new H) as Hw.
  destruct (Router.preflightHandler trustAll
              (ERequest_new (request "OPTIONS" "/")) EResponse.new)
    as [[req' res'] k].
  destruct Hw as [_ [_ [Hs [_ Ho]]]]. split; assumption.
Defined.

(** A trusted preflight that asks for [PUT] is allowed [PUT]. *)
Lemma preflightHandler_mirrors_request_witness :
  let '(_, res', _) := Router.preflightHandler trustA
                         (preflightAsking "https://a.com" "PUT") EResponse.new in
  status res' = 200%Z /\
  header "access-control-allow-methods" res' = Some "PUT" /\
  header "access-control-allow-headers" res' = None.
Proof.
  pose proof (preflightHandler_mirrors_request trustA
                (preflightAsking "https://a.com" "PUT") EResponse.new) as H.
  destruct (Router.preflightHandler trustA
              (preflightAsking "https://a.com" "PUT") EResponse.new)
    as [[req' res'] k] eqn:E.
  assert (Hs : status res' = 200%Z) by (inversion E; reflexivity).
  split; [exact Hs|]. destruct (H Hs) as [Hm Hh].
  split; [exact Hm | exact Hh].
Defined.

(** [GET /any] on the same router: 405 with [Allow: OPTIONS]. *)
Lemma constructor_preflight_only_witness :
  autoCorsPreflight corsConfig = Some trustA /\
  ev_method (request "GET" "/any") <> "OPTIONS" /\
  exists response,
    Router.d_settled (Router.handler (Router.constructor corsConfig)
                        (request "GET" "/any")) = Router.Resolved response /\
    r_status response = 405%Z.
Proof.
  assert (Hm : ev_method (request "GET" "/any") <> "OPTIONS") by discriminate.
  split; [reflexivity|]. split; [exact Hm|].
  destruct (constructor_preflight_only corsConfig trustA (request "GET" "/any")
              eq_refl Hm) as [_ [response [Hs [Hst _]]]].
  exists response. split; [exact Hs | exact Hst].
Defined.

(** A path-scoped middleware, [use("/x", cb)], at [POST /x] and [POST /y]. *)
Lemma wildcard_methods_never_mismatch_witness :
  In "*" ["*"] /\
  fst (Router.routeMatcher Router.defaultConfig ["*"] "/x"
         (ERequest_new (request "POST" "/x"))) = Matched /\
  fst (Router.routeMatcher Router.defaultConfig ["*"] "/x"
         (ERequest_new (request "POST" "/y"))) = NotFound.
Proof.
  assert (H : In "*" ["*"]) by now left.
  split; [exact H|]. split.
  - destruct (wildcard_methods_never_mismatch Router.defaultConfig ["*"] "/x"
                (ERequest_new (request "POST" "/x")) H) as [Hm|Hn];
      [exact Hm | discriminate Hn].
  - destruct (wildcard_methods_never_mismatch Router.defaultConfig ["*"] "/x"
                (ERequest_new (request "POST" "/y")) H) as [Hm|Hn];
      [discriminate Hm | exact Hn].
Defined.


(** [POST /x] against the route [GET /x]: a method mismatch, and the
    parameters of the match are written to the request all the same. *)
Lemma routeMatcher_request_witness :
  let '(r, req') := Router.routeMatcher Router.defaultConfig ["GET"] "/x"
                      (ERequest_new (request "POST" "/x")) in
  r = MethodMismatch ["GET"] /\
  exists m, path_to_regexp_match "/x" "/x" = Some m /\ params req' = match_params m.
Proof.
  pose proof (routeMatcher_request Router.defaultConfig ["GET"] "/x"
                (ERequest_new (request "POST" "/x"))) as H.
  destruct (Router.routeMatcher Router.defaultConfig ["GET"] "/x"
              (ERequest_new (request "POST" "/x"))) as [r req'] eqn:E.
  assert (Hr : r = MethodMismatch ["GET"]) by (inversion E; reflexivity).
  split; [exact Hr|].
  destruct H as [_ [_ [_ [_ Hp]]]].
  apply Hp; [rewrite Hr; discriminate | reflexivity | reflexivity].
Defined.

(** The router just constructed has no handler: [GET /x] is answered 204. *)
Lemma handler_empty_router_witness :
  Router.requestHandlers emptyRouter = [] /\
  Router.d_settled (Router.handler emptyRouter (request "GET" "/x")) =
  Router.Resolved {| r_status := 204; r_headers := []; r_body := None |}.
Proof.
  split; [reflexivity|].
  rewrite (handler_empty_router emptyRouter (request "GET" "/x") eq_refl).
  reflexivity.
Defined.

Lemma handler_thrown_error_is_500_witness :
  let run := Router.runRequestHandlers getThenBoom (initialCtx (request "POST" "/x")) in
  run = (fst run, Throw (OtherError "boom")) /\
  hasEnded (c_res (fst run)) = false /\
  exists response,
    Router.d_settled (Router.handler getThenBoom (request "POST" "/x")) =
      Router.Resolved response /\
    r_status response = 500%Z.
Proof.
  intro run.
  assert (H1 : run = (fst run, Throw (OtherError "boom"))) by reflexivity.
  split; [exact H1|]. split; [reflexivity|].
  destruct (handler_thrown_error_is_500 getThenBoom (request "POST" "/x")
              (fst run) "boom" H1 eq_refl (Forall_nil _))
    as [response [Hs [Hst _]]].
  exists response. split; [exact Hs | exact Hst].
Defined.

(** The content type set between two cookies reaches the wire. *)
Lemma serializeResponse_other_headers_witness :
  Headers.norm "Content-Type" <> "set-cookie" /\
  Headers.values "Content-Type"
    (r_headers (Router.serializeResponse
                  (performAll [CallCookie "a" "1" noCookieOptions;
                               CallSetHeader "Content-Type" "text/plain";
                               CallCookie "b" "2" noCookieOptions]
                              EResponse.new))) = ["text/plain"].
Proof.
  assert (H : Headers.norm "Content-Type" <> "set-cookie") by discriminate.
  split; [exact H|].
  destruct (serializeResponse_other_headers
              (performAll [CallCookie "a" "1" noCookieOptions;
                           CallSetHeader "Content-Type" "text/plain";
                           CallCookie "b" "2" noCookieOptions]
                          EResponse.new) "Content-Type" H) as [Hv _].
  rewrite Hv. reflexivity.
Defined.

(** The cookie [a] set again on a builder that tracks [a] and [b]. *)
Lemma FPResponse_cookie_tracks_witness :
  let fp := FPResponse.cookie "b" "2" noCookieOptions
              (FPResponse.cookie "a" "1" noCookieOptions FPResponse.new) in
  In "a" (map fst (FPResponse._cookies fp)) /\
  FPResponse._cookies (FPResponse.cookie "a" "3" noCookieOptions fp) =
  [("a", "a=3"); ("b", "b=2")].
Proof.
  intro fp.
  assert (Hin : In "a" (map fst (FPResponse._cookies fp))) by now left.
  split; [exact Hin|].
  destruct (FPResponse_cookie_tracks "a" "3" noCookieOptions fp)
    as [Hget [Hother [_ [Hkeys _]]]].
  specialize (Hkeys Hin).
  assert (Hb : Map_get "b" (FPResponse._cookies
                              (FPResponse.cookie "a" "3" noCookieOptions fp)) =
               Some "b=2") by (rewrite Hother; [reflexivity | discriminate]).
  destruct (FPResponse._cookies (FPResponse.cookie "a" "3" noCookieOptions fp))
    as [|[k1 v1] [|[k2 v2] [|x xs]]]; try discriminate Hkeys.
  simpl in Hkeys. inversion Hkeys; subst.
  simpl in Hget, Hb. inversion Hget; inversion Hb. reflexivity.
Defined.


(** [setDefaults] on a new builder, and on one that sent a body. *)
Lemma FPResponse_setDefaults_settles_witness :
  FPResponse.status (FPResponse.setDefaults FPResponse.new) = 404%Z /\
  FPResponse.status
    (FPResponse.setDefaults
       (FPResponse.send (FPResponse.SendBody (Some (BodyText ""))) FPResponse.new))
    = 200%Z.
Proof.
  split.
  - destruct (FPResponse_setDefaults_settles FPResponse.new)
      as [_ [_ [_ [H _]]]].
    destruct (H eq_refl) as [Hs _]. exact Hs.
  - destruct (FPResponse_setDefaults_settles
                (FPResponse.send (FPResponse.SendBody (Some (BodyText "")))
                                 FPResponse.new))
      as [_ [_ [_ [H _]]]].
    destruct (H eq_refl) as [Hs _]. exact Hs.
Defined.

(** Forwarding a response of status 502 with two headers. *)
Lemma FPResponse_send_response_witness :
  NoDup (map (fun kv => Headers.norm (fst kv)) upstreamHeaders) /\
  (let fp' := FPResponse.send
                (FPResponse.SendResponse (Some (BodyText "bad")) upstreamHeaders 502)
                (FPResponse.setHeader "Content-Type" "application/json" FPResponse.new) in
   FPResponse.status fp' = 502%Z /\
   Headers.values "Content-Type" (FPResponse._headers fp') = ["text/plain"]).
Proof.
  assert (Hnd : NoDup (map (fun kv => Headers.norm (fst kv)) upstreamHeaders)).
  { simpl. constructor.
    - intros [H|[]]. discriminate H.
    - constructor; [intros [] | constructor]. }
  split; [exact Hnd|].
  destruct (FPResponse_send_response (Some (BodyText "bad")) upstreamHeaders 502
              (FPResponse.setHeader "Content-Type" "application/json" FPResponse.new)
              Hnd) as [_ [Hs [_ [Hh _]]]].
  split; [exact Hs|].
  rewrite <- (Hh "content-type" "text/plain"); [reflexivity | now left].
Defined.

(** [OPTIONS /x] on a router constructed with [autoCorsPreflight] on
    which a middleware and the route [OPTIONS /x] were registered after:
    the preflight handler refuses the request, which has no [Origin]
    header, and neither of the later handlers is checked. *)
Lemma preflight_answers_options_witness :
  autoCorsPreflight corsConfig = Some trustA /\
  length (Router.requestHandlers corsThenRoutes) = 3 /\
  c_log (Router.d_ctx (Router.handler corsThenRoutes (request "OPTIONS" "/x"))) =
    [RequestChecked 0 Matched; RequestRan 0 true] /\
  exists response,
    Router.d_settled (Router.handler corsThenRoutes (request "OPTIONS" "/x")) =
      Router.Resolved response /\
    r_status response = 403%Z.
Proof.
  split; [reflexivity|]. split; [reflexivity|].
  pose proof (preflight_answers_options corsConfig trustA corsThenRoutes
                (skipn 1 (Router.requestHandlers corsThenRoutes))
                (request "OPTIONS" "/x") eq_refl eq_refl eq_refl) as H.
  destruct (Router.preflightHandler trustA
              (ERequest_new (request "OPTIONS" "/x")) EResponse.new)
    as [[req' res'] k] eqn:E.
  rewrite H. split; [reflexivity|].
  exists (Router.serializeResponse res'). split; [reflexivity|].
  inversion E. reflexivity.
Defined.

(** [POST /x] on [get("/x", sendOk); post("/x", sendOk)]: the request chain
    fails with the methods of the first route, after the second answered;
    the answer stands. *)
Lemma ended_response_is_final_witness :
  let run := Router.runRequestHandlers getThenPost (initialCtx (request "POST" "/x")) in
  snd run = Throw (ErrorMethodNotAllowed [["GET"]]) /\
  hasEnded (c_res (fst run)) = true /\
  Router.d_settled (Router.handler getThenPost (request "POST" "/x")) =
  Router.Resolved {| r_status := 200; r_headers := []; r_body := Some (BodyText "ok") |}.
Proof.
  intro run. split; [reflexivity|]. split; [reflexivity|].
  destruct (ended_response_is_final getThenPost (request "POST" "/x")
              (fst run) (snd run) eq_refl eq_refl) as [_ [_ Hs]].
  rewrite Hs; reflexivity.
Defined.

(** [GET /y] on [get("/x", sendOk)]: 404. *)
Lemma handler_no_route_is_404_witness :
  Router.requestHandlers onlyGet <> [] /\
  Forall (fun a => check a (ERequest_new (request "GET" "/y")) =
                   (NotFound, ERequest_new (request "GET" "/y")))
         (Router.requestHandlers onlyGet) /\
  exists response,
    Router.d_settled (Router.handler onlyGet (request "GET" "/y")) =
      Router.Resolved response /\
    r_status response = 404%Z.
Proof.
  assert (Hne : Router.requestHandlers onlyGet <> []) by discriminate.
  assert (Hnf : Forall (fun a => check a (ERequest_new (request "GET" "/y")) =
                                 (NotFound, ERequest_new (request "GET" "/y")))
                       (Router.requestHandlers onlyGet)).
  { repeat constructor. }
  split; [exact Hne|]. split; [exact Hnf|].
  destruct (handler_no_route_is_404 onlyGet (request "GET" "/y") Hne Hnf
              (Forall_nil _)) as [_ [response [Hs Hst]]].
  exists response. split; [exact Hs | exact Hst].
Defined.

(** [POST /x] on [get("/x", sendOk)] and then [use(boom)]: the middleware
    is visited second, after the mismatch of the route was recorded. *)
Lemma registered_last_is_visited_last_witness :
  Router.requestLoop 0 (Router.requestHandlers getThenBoom) Router.noLocals
    (initialCtx (request "POST" "/x")) =
  Router.requestLoop 1
    [{| check := fun req => (Matched, req); run := boom |}]
    {| Router.checkResult := Some (MethodMismatch ["GET"]);
       Router.allowedMethods := [["GET"]] |}
    (logged (RequestChecked 0 (MethodMismatch ["GET"]))
            (initialCtx (request "POST" "/x"))).
Proof.
  destruct (registered_last_is_visited_last onlyGet [] "" boom None (fun err req res => (req, res, Normal))
              Router.noLocals (initialCtx (request "POST" "/x"))) as [_ [H _]].
  exact H.
Defined.

(** [redirect("/new")] on a new builder. *)
Lemma FPResponse_redirect_witness :
  storedAsGiven "/new" = true /\
  Headers.values "location" (FPResponse._headers (FPResponse.redirect "/new" FPResponse.new))
    = ["/new"] /\
  storedAsGiven " /new " = false.
Proof.
  split; [reflexivity|]. split; [|reflexivity].
  destruct (FPResponse_redirect "/new" FPResponse.new eq_refl) as [_ [H _]].
  exact H.
Defined.

(** [json] of a string and of [undefined] on a new builder, then
    [setDefaults]: 200 and 404. *)
Lemma FPResponse_json_witness :
  FPResponse.status FPResponse.new = 0%Z /\
  FPResponse.status
    (FPResponse.setDefaults (FPResponse.json (Some (JString "hi")) FPResponse.new))
    = 200%Z /\
  FPResponse.status (FPResponse.setDefaults (FPResponse.json None FPResponse.new))
    = 404%Z.
Proof.
  split; [reflexivity|]. split.
  - destruct (FPResponse_json (Some (JString "hi")) FPResponse.new)
      as [_ [_ [_ H]]]. exact (H eq_refl).
  - destruct (FPResponse_json None FPResponse.new) as [_ [_ [_ H]]].
    exact (H eq_refl).
Defined.


End MoreExamples.
